(** * SmartBuilder Pro Lite: the territory scoring engine of backend/main.py

    A shallow embedding of the scoring functions, the recommendation
    generator, the amenity gateway and the create-territory handler, with
    the properties their specification states about them.

    Python floats are read as real numbers: every score the scorers build
    is a sum of a few multiples of 0.5, which binary floating point adds
    without rounding, and distances are only ever compared with integer
    bounds.  [float('inf')] and [None] are modelled by explicit
    constructors.

    The real numbers keep the values the code returns, not every exception
    it raises.  Rounding can take the haversine term [a] above 1 for points
    that are nearly antipodal, and [math.sqrt(1 - a)] then raises
    [ValueError]; a float quotient can be 0.0 where the real one is not, so
    that the road density raises [ZeroDivisionError] for a positive area.
    What is stated of the scorers over the reals is therefore stated of the
    values they return.  The efficiency scorer is given a second time in
    binary64, where its division is the code's to the bit. *)

From Stdlib Require Import Floats.PrimFloat.
From Stdlib Require Numbers.Cyclic.Int63.Uint63.
From Stdlib Require Import Reals Lra Lia ZArith Ascii String.
From stdpp Require Import base option list strings gmap.

Open Scope R_scope.

(** ** Data model *)

(** A shapely point: [x] is the longitude, [y] the latitude. *)
Record Point := mkPoint { pt_x : R; pt_y : R }.

(** One element of an amenity list, as [get_amenities_in_area] builds it. *)
Record AmenityRecord := mkAmenity {
  am_id : Z;
  am_lat : R;
  am_lon : R;
  am_tags : list (string * string)
}.

(** One element of the road list of [get_roads_in_polygon]. *)
Record RoadRecord := mkRoad {
  road_id : Z;
  road_tags : list (string * string)
}.

(** The dict from category to amenity list. *)
Abbreviation AmenitySet := (gmap string (list AmenityRecord)).

(** ** GeoMath *)

Definition radians (deg : R) : R := deg * (PI / 180).

(** [math.atan2 y x]. *)
Definition atan2 (y x : R) : R :=
  if Rlt_dec 0 x then atan (y / x)
  else if Rlt_dec x 0 then
    (if Rle_dec 0 y then atan (y / x) + PI else atan (y / x) - PI)
  else if Rlt_dec 0 y then PI / 2
  else if Rlt_dec y 0 then - (PI / 2)
  else 0.

(** The haversine formula over the reals, where [a] never exceeds 1 and
    the square roots are always defined. *)
Definition haversine_distance (lat1 lon1 lat2 lon2 : R) : R :=
  let R_earth := 6371000 in
  let phi1 := radians lat1 in
  let phi2 := radians lat2 in
  let delta_phi := radians (lat2 - lat1) in
  let delta_lambda := radians (lon2 - lon1) in
  let a := sin (delta_phi / 2) ^ 2 +
           cos phi1 * cos phi2 * sin (delta_lambda / 2) ^ 2 in
  let c := 2 * atan2 (sqrt a) (sqrt (1 - a)) in
  R_earth * c.

(** The running minimum of [find_closest]: it starts at [float('inf')]. *)
Inductive MinDist := Inf | Fin (d : R).

(** [min(min_dist, dist)]. *)
Definition py_min (min_dist : MinDist) (dist : R) : MinDist :=
  match min_dist with
  | Inf => Fin dist
  | Fin m => Fin (Rmin m dist)
  end.

Definition find_closest (point : Point) (amenities : list AmenityRecord)
  : option R :=
  match amenities with
  | [] => None
  | _ =>
      let min_dist :=
        foldl (fun min_dist amenity =>
                 let dist := haversine_distance (pt_y point) (pt_x point)
                               (am_lat amenity) (am_lon amenity) in
                 py_min min_dist dist)
              Inf amenities in
      match min_dist with
      | Fin d => Some d
      | Inf => None
      end
  end.

(** ** Scoring functions *)

(** Exceptions the modelled code can raise. *)
Inductive exn :=
  | ZeroDivisionError
  | IndexError
  | ValueError
  | OverpassError
  | ShapelyError
  | HTTPException (status_code : Z) (detail : string).

(** A computation that returns a value or raises. *)
Inductive result (A : Type) :=
  | Ok (a : A)
  | Raise (e : exn).
Arguments Ok {A} a.
Arguments Raise {A} e.

#[global] Instance result_ret : MRet result := fun A a => Ok a.
#[global] Instance result_bind : MBind result := fun A B k m =>
  match m with
  | Ok a => k a
  | Raise e => Raise e
  end.

(** The truth value of [amenities.get(key)]: a missing key gives [None] and
    a present one its list; [None] and [[]] are falsy. *)
Definition truthy (v : option (list AmenityRecord)) : bool :=
  match v with
  | Some (_ :: _) => true
  | _ => false
  end.

(** [amenities[key]], read only under a truthy [amenities.get(key)], and
    [amenities.get(key, [])]. *)
Definition getitem (amenities : AmenitySet) (key : string)
  : list AmenityRecord :=
  default [] (amenities !! key).

(** The test [dist and dist < bound]: [None] and [0.0] are both falsy. *)
Definition dist_and_lt (dist : option R) (bound : R) : bool :=
  match dist with
  | None => false
  | Some d =>
      if Req_dec_T d 0 then false
      else if Rlt_dec d bound then true else false
  end.

Definition calculate_safety_score (centroid : Point) (amenities : AmenitySet)
  : R :=
  let score := 50 in
  let score :=
    if truthy (amenities !! "police") then
      let dist := find_closest centroid (getitem amenities "police") in
      if dist_and_lt dist 2000 then score + 20
      else if dist_and_lt dist 5000 then score + 10
      else score
    else score in
  let score :=
    if truthy (amenities !! "fire_station") then
      let dist := find_closest centroid (getitem amenities "fire_station") in
      if dist_and_lt dist 3000 then score + 15
      else if dist_and_lt dist 7000 then score + 7
      else score
    else score in
  let score :=
    if truthy (amenities !! "hospital") then
      let dist := find_closest centroid (getitem amenities "hospital") in
      if dist_and_lt dist 3000 then score + 15
      else if dist_and_lt dist 5000 then score + 10
      else score
    else score in
  Rmin score 100.

(** Division over the reals: a zero divisor raises.  [f64_div] below is
    the division on binary64 values. *)
Definition py_div (a b : R) : result R :=
  if Req_dec_T b 0 then Raise ZeroDivisionError else Ok (a / b).

Definition calculate_efficiency_score (roads : list RoadRecord) (area_sqm : R)
    (amenities : AmenitySet) : result R :=
  let score := 40 in
  road_density ← py_div (INR (length roads)) (area_sqm / 1000000);
  let score :=
    if Rlt_dec 10 road_density then score + 20
    else if Rlt_dec 5 road_density then score + 15
    else if Rlt_dec 2 road_density then score + 10
    else score in
  let score :=
    if truthy (amenities !! "bus_station") then score + 15 else score in
  let parking_count := length (getitem amenities "parking") in
  let score :=
    if (2 <? parking_count)%nat then score + 10
    else if (0 <? parking_count)%nat then score + 5
    else score in
  let commerce := (length (getitem amenities "restaurant") +
                   length (getitem amenities "cafe") +
                   length (getitem amenities "bank"))%nat in
  let score :=
    if (10 <? commerce)%nat then score + 15
    else if (5 <? commerce)%nat then score + 10
    else score in
  Ok (Rmin score 100).

(** The [services] dict, in its insertion order. *)
Definition services : list (string * (R * R)) :=
  [("school", (1000, 20)); ("hospital", (3000, 15)); ("pharmacy", (500, 10));
   ("park", (1000, 10)); ("post_office", (2000, 5)); ("library", (2000, 5))].

(** The body of the loop over [services.items()]. *)
Definition accessibility_step (centroid : Point) (amenities : AmenitySet)
    (score : R) (item : string * (R * R)) : R :=
  let '(service, (max_dist, points)) := item in
  if truthy (amenities !! service) then
    let dist := find_closest centroid (getitem amenities service) in
    if dist_and_lt dist max_dist then score + points
    else if dist_and_lt dist (max_dist * 2) then score + points / 2
    else score
  else score.

Definition calculate_accessibility_score (centroid : Point)
    (amenities : AmenitySet) : R :=
  let score := 30 in
  let score := foldl (accessibility_step centroid amenities) score services in
  Rmin score 100.

Definition calculate_environmental_score (amenities : AmenitySet) : R :=
  let score := 50 in
  let parks_count := (length (getitem amenities "park") +
                      length (getitem amenities "playground"))%nat in
  let score :=
    if (5 <? parks_count)%nat then score + 25
    else if (2 <? parks_count)%nat then score + 15
    else if (0 <? parks_count)%nat then score + 10
    else score in
  Rmin score 100.

(** ** Recommendations *)

Definition newline : string := String "010"%char "".

(** [sep.join(items)]. *)
Fixpoint join (sep : string) (items : list string) : string :=
  match items with
  | [] => ""
  | [s] => s
  | s :: rest => s +:+ sep +:+ join sep rest
  end.

Definition msg_safety : string :=
  "• Улучшить инфраструктуру безопасности (полиция, пожарные станции)".
Definition msg_efficiency : string :=
  "• Развить дорожную сеть и общественный транспорт".
Definition msg_add : string := "• Добавить: ".
Definition msg_environmental : string :=
  "• Увеличить количество зеленых зон".
Definition msg_well_developed : string :=
  "• Территория хорошо развита. Поддерживайте текущее состояние.".

(** The list [recs] as it stands before the final join. *)
Definition recommendation_list (safety efficiency accessibility environmental : R)
    (amenities : AmenitySet) : list string :=
  let recs := [] in
  let recs := if Rlt_dec safety 60 then recs ++ [msg_safety] else recs in
  let recs := if Rlt_dec efficiency 60 then recs ++ [msg_efficiency] else recs in
  let recs :=
    if Rlt_dec accessibility 60 then
      let missing := [] in
      let missing :=
        if negb (truthy (amenities !! "school"))
        then missing ++ ["школы"] else missing in
      let missing :=
        if negb (truthy (amenities !! "hospital"))
        then missing ++ ["медучреждения"] else missing in
      let missing :=
        if negb (truthy (amenities !! "park"))
        then missing ++ ["парки"] else missing in
      match missing with
      | [] => recs
      | _ => recs ++ [msg_add +:+ join ", " missing]
      end
    else recs in
  let recs :=
    if Rlt_dec environmental 60 then recs ++ [msg_environmental] else recs in
  match recs with
  | [] => recs ++ [msg_well_developed]
  | _ => recs
  end.

Definition generate_recommendations (safety efficiency accessibility
    environmental : R) (amenities : AmenitySet) : string :=
  join newline
    (recommendation_list safety efficiency accessibility environmental
       amenities).

(** ** Rounding *)

(** The integer nearest to [x], ties going to the even one. *)
Definition round_half_even (x : R) : Z :=
  let n := Int_part x in
  let f := x - IZR n in
  if Rlt_dec f (1 / 2) then n
  else if Rlt_dec (1 / 2) f then (n + 1)%Z
  else if Z.even n then n else (n + 1)%Z.

(** [round(x, ndigits)]. *)
Definition py_round (x : R) (ndigits : nat) : R :=
  IZR (round_half_even (x * 10 ^ ndigits)) / 10 ^ ndigits.

(** ** The Overpass gateway *)

(** The cache key [f"amenities_{lat}_{lon}_{radius}"]. *)
Definition CacheKey : Type := R * R * Z.

Definition CacheKey_eq_dec (k1 k2 : CacheKey) : {k1 = k2} + {k1 <> k2}.
Proof.
  destruct k1 as [[a1 b1] r1], k2 as [[a2 b2] r2].
  destruct (Req_dec_T a1 a2); [|right; congruence].
  destruct (Req_dec_T b1 b2); [|right; congruence].
  destruct (Z.eq_dec r1 r2); [left|right]; congruence.
Defined.

(** [osm_cache] as a call sees it: the entries that are alive.  Expiry and
    eviction happen between calls and are not part of the model. *)
Definition Cache : Type := CacheKey -> option AmenitySet.

(** [osm_cache[cache_key] = results]. *)
Definition cache_set (cache_key : CacheKey) (results : AmenitySet)
    (osm_cache : Cache) : Cache :=
  fun k => if CacheKey_eq_dec cache_key k then Some results else osm_cache k.

(** The Overpass service: what a node query for one amenity type over a
    bounding box and a way query for [highway] over a bounding box answer.
    [Raise] stands for any exception of building the query, sending it or
    reading its elements. *)
Record Overpass := mkOverpass {
  query_nodes : list R -> string -> result (list AmenityRecord);
  query_ways : list R -> result (list RoadRecord)
}.

Definition amenity_types : list string :=
  ["school"; "hospital"; "pharmacy"; "police"; "fire_station";
   "bus_station"; "parking"; "restaurant"; "cafe"; "bank";
   "post_office"; "library"; "park"; "playground"].

(** What the [try]/[except] around one query leaves for its amenity type:
    the nodes found, or the empty list if anything raised. *)
Definition category_result (overpass : Overpass) (lat lon : R)
    (amenity : string) : list AmenityRecord :=
  match query_nodes overpass
          [lat - 0.01; lon - 0.01; lat + 0.01; lon + 0.01] amenity with
  | Ok amenities => amenities
  | Raise _ => []
  end.

(** The body of the loop over [amenity_types], with its [try]/[except]. *)
Definition fetch_step (overpass : Overpass) (lat lon : R)
    (results : AmenitySet) (amenity : string) : AmenitySet :=
  match query_nodes overpass
          [lat - 0.01; lon - 0.01; lat + 0.01; lon + 0.01] amenity with
  | Ok amenities => <[amenity := amenities]> results
  | Raise _ => <[amenity := []]> results
  end.

Definition get_amenities_in_area (overpass : Overpass) (osm_cache : Cache)
    (lat lon : R) (radius : Z) : AmenitySet * Cache :=
  let cache_key := (lat, lon, radius) in
  match osm_cache cache_key with
  | Some cached => (cached, osm_cache)
  | None =>
      let results := foldl (fetch_step overpass lat lon) ∅ amenity_types in
      (results, cache_set cache_key results osm_cache)
  end.

(** [l[i]]. *)
Definition index {A} (l : list A) (i : nat) : result A :=
  match l !! i with
  | Some a => Ok a
  | None => Raise IndexError
  end.

(** [min(l)] and [max(l)] of a list of floats. *)
Definition min_list (l : list R) : result R :=
  match l with
  | [] => Raise ValueError
  | a :: rest => Ok (foldl Rmin a rest)
  end.

Definition max_list (l : list R) : result R :=
  match l with
  | [] => Raise ValueError
  | a :: rest => Ok (foldl Rmax a rest)
  end.

(** The [try] block of [get_roads_in_polygon]. *)
Definition roads_query (overpass : Overpass)
    (coordinates : list (list (list R))) : result (list RoadRecord) :=
  ring ← index coordinates 0;
  lats ← mapM (fun coord => index coord 1) ring;
  lons ← mapM (fun coord => index coord 0) ring;
  min_lat ← min_list lats;
  min_lon ← min_list lons;
  max_lat ← max_list lats;
  max_lon ← max_list lons;
  query_ways overpass [min_lat; min_lon; max_lat; max_lon].

Definition get_roads_in_polygon (overpass : Overpass)
    (coordinates : list (list (list R))) : list RoadRecord :=
  match roads_query overpass coordinates with
  | Ok roads => roads
  | Raise _ => []
  end.

(** ** The in-memory stores and the handlers *)

Record Project := mkProject {
  project_ident : string;
  project_name : string;
  project_description : option string;
  project_location : option string;
  project_created_at : string;
  territories_count : Z
}.

Record TerritoryCreate := mkTerritoryCreate {
  tc_name : string;
  tc_project_id : string;
  tc_coordinates : list (list (list R))
}.

Record Territory := mkTerritory {
  territory_ident : string;
  territory_name : string;
  territory_project_id : string;
  coordinates : list (list (list R));
  area_sqm : R;
  centroid_lat : R;
  centroid_lon : R;
  territory_created_at : string
}.

Record Metrics := mkMetrics {
  amenities_count : gmap string nat;
  roads_count : nat
}.

Record Assessment := mkAssessment {
  assessment_ident : string;
  territory_id : string;
  safety_score : R;
  efficiency_score : R;
  accessibility_score : R;
  environmental_score : R;
  overall_score : R;
  recommendations : string;
  metrics : Metrics;
  assessment_created_at : string
}.

(** The module-level dictionaries and the cache. *)
Record Store := mkStore {
  PROJECTS : gmap string Project;
  TERRITORIES : gmap string Territory;
  ASSESSMENTS : gmap string Assessment;
  osm_cache : Cache
}.

(** A shapely polygon as the handler has read it: its area and the
    coordinates of its centroid.  [Geometry] below is the polygon before
    these are read, when the centroid can still be the empty point. *)
Record Polygon := mkPolygon {
  area : R;
  centroid : Point
}.

(** What one request takes from outside the program: the shapely
    constructor, the Overpass service, the two identifiers [uuid.uuid4()]
    draws and the two readings of the clock. *)
Record Env := mkEnv {
  shapely_Polygon : list (list R) -> result Polygon;
  overpass : Overpass;
  uuid_territory : string;
  uuid_assessment : string;
  now_territory : string;
  now_assessment : string
}.

(** The [try] block of [create_territory]: the assessment it builds, or the
    exception it raises, and the cache the fetch leaves behind. *)
Definition assess (env : Env) (cache : Cache) (territory_id : string)
    (centroid : Point) (area_sqm : R) (coordinates : list (list (list R)))
  : result Assessment * Cache :=
  let '(amenities, cache) :=
    get_amenities_in_area (overpass env) cache
      (pt_y centroid) (pt_x centroid) 1000 in
  let roads := get_roads_in_polygon (overpass env) coordinates in
  let outcome :=
    let safety := calculate_safety_score centroid amenities in
    efficiency ← calculate_efficiency_score roads area_sqm amenities;
    let accessibility := calculate_accessibility_score centroid amenities in
    let environmental := calculate_environmental_score amenities in
    let overall := (safety + efficiency + accessibility + environmental) / 4 in
    let recommendations :=
      generate_recommendations safety efficiency accessibility environmental
        amenities in
    mret {|
      assessment_ident := uuid_assessment env;
      territory_id := territory_id;
      safety_score := py_round safety 2;
      efficiency_score := py_round efficiency 2;
      accessibility_score := py_round accessibility 2;
      environmental_score := py_round environmental 2;
      overall_score := py_round overall 2;
      recommendations := recommendations;
      metrics := {| amenities_count := length <$> amenities;
                    roads_count := length roads |};
      assessment_created_at := now_assessment env
    |} in
  (outcome, cache).

Definition bump_territories_count (p : Project) : Project :=
  mkProject (project_ident p) (project_name p) (project_description p)
    (project_location p) (project_created_at p) (territories_count p + 1).

(** [POST /territories]: the response, or the exception that leaves the
    handler, and the stores afterwards. *)
Definition create_territory (env : Env) (st : Store)
    (territory_data : TerritoryCreate) : result Territory * Store :=
  if decide (tc_project_id territory_data ∈ dom (PROJECTS st)) then
    let territory_id := uuid_territory env in
    match ring ← index (tc_coordinates territory_data) 0;
          shapely_Polygon env ring with
    | Raise e => (Raise e, st)
    | Ok polygon =>
        let area_sqm := area polygon * 111320 * 111320 in
        let centroid := centroid polygon in
        let territory := {|
          territory_ident := territory_id;
          territory_name := tc_name territory_data;
          territory_project_id := tc_project_id territory_data;
          coordinates := tc_coordinates territory_data;
          area_sqm := area_sqm;
          centroid_lat := pt_y centroid;
          centroid_lon := pt_x centroid;
          territory_created_at := now_territory env
        |} in
        let territories := <[territory_id := territory]> (TERRITORIES st) in
        let projects :=
          alter bump_territories_count (tc_project_id territory_data)
            (PROJECTS st) in
        let '(outcome, cache) :=
          assess env (osm_cache st) territory_id centroid area_sqm
            (tc_coordinates territory_data) in
        let assessments :=
          match outcome with
          | Ok assessment => <[territory_id := assessment]> (ASSESSMENTS st)
          | Raise _ => ASSESSMENTS st
          end in
        (Ok territory, mkStore projects territories assessments cache)
    end
  else (Raise (HTTPException 404 "Project not found"), st).

(** [GET /territories/{territory_id}]. *)
Definition get_territory (st : Store) (territory_id : string)
  : result Territory :=
  match TERRITORIES st !! territory_id with
  | Some t => Ok t
  | None => Raise (HTTPException 404 "Territory not found")
  end.

(** [GET /assessments/{territory_id}]. *)
Definition get_assessment (st : Store) (territory_id : string)
  : result Assessment :=
  match ASSESSMENTS st !! territory_id with
  | Some a => Ok a
  | None => Raise (HTTPException 404 "Assessment not found")
  end.

(** ** The safety formula as the specification words it *)

(** The specification's bonus of one category: nothing when the category
    has no nearest distance, [full] below [near], else [part] below [far]. *)
Definition spec_category_bonus (nearest : option R) (near far full part : R)
  : R :=
  match nearest with
  | None => 0
  | Some d =>
      if Rlt_dec d near then full
      else if Rlt_dec d far then part
      else 0
  end.

(** The specification's safetyScore: base 50, the three independent
    category bonuses, clamped to 100. *)
Definition spec_safetyScore (centroid : Point) (amenities : AmenitySet) : R :=
  Rmin (50
        + spec_category_bonus
            (find_closest centroid (getitem amenities "police"))
            2000 5000 20 10
        + spec_category_bonus
            (find_closest centroid (getitem amenities "fire_station"))
            3000 7000 15 7
        + spec_category_bonus
            (find_closest centroid (getitem amenities "hospital"))
            3000 5000 15 10)
       100.

(** ** Invariant of the cache *)

(** Every cached amenity set carries all the amenity types. *)
Definition cache_complete (osm_cache : Cache) : Prop :=
  forall cache_key cached, osm_cache cache_key = Some cached ->
    forall amenity, amenity ∈ amenity_types -> is_Some (cached !! amenity).

Definition empty_cache : Cache := fun _ => None.

(** ** Sample inputs *)

Definition origin : Point := mkPoint 0 0.

(** An amenity standing exactly on [origin]. *)
Definition amenity_at_origin : AmenityRecord := mkAmenity 1 0 0 [].

(** The amenity set in which every amenity type has the empty list. *)
Definition empty_amenities : AmenitySet :=
  foldl (fun results amenity => <[amenity := []]> results) ∅ amenity_types.

(** Every list empty but for one police station on the centroid. *)
Definition police_on_centroid : AmenitySet :=
  <["police" := [amenity_at_origin]]> empty_amenities.

(** Schools, hospitals and parks are there, nothing else. *)
Definition served_amenities : AmenitySet :=
  <["school" := [amenity_at_origin]]>
    (<["hospital" := [amenity_at_origin]]>
       (<["park" := [amenity_at_origin]]> empty_amenities)).

(** An Overpass service that finds nothing, and one whose police query
    fails while every other query finds one node. *)
Definition silent_overpass : Overpass :=
  mkOverpass (fun _ _ => Ok []) (fun _ => Ok []).

Definition police_down_overpass : Overpass :=
  mkOverpass
    (fun _ amenity =>
       if decide (amenity = "police") then Raise OverpassError
       else Ok [amenity_at_origin])
    (fun _ => Ok []).

(** A request whose ring is flat, so that shapely reports area 0. *)
Definition flat_request : TerritoryCreate :=
  mkTerritoryCreate "flat" "p-1" [[[0; 0]; [1; 0]; [2; 0]; [0; 0]]].

Definition flat_env : Env := {|
  shapely_Polygon := fun _ => Ok (mkPolygon 0 (mkPoint 1 0));
  overpass := silent_overpass;
  uuid_territory := "t-1";
  uuid_assessment := "a-1";
  now_territory := "2024-01-01T00:00:00";
  now_assessment := "2024-01-01T00:00:01"
|}.

Definition one_project_store : Store :=
  mkStore {[ "p-1" := mkProject "p-1" "demo" None None "2024-01-01T00:00:00" 0 ]}
    ∅ ∅ empty_cache.

(** ** The project handlers *)

Record ProjectCreate := mkProjectCreate {
  pc_name : string;
  pc_description : option string;
  pc_location : option string
}.

(** [POST /projects], given the identifier [uuid.uuid4()] draws and the
    reading of the clock. *)
Definition create_project (project_id now : string) (st : Store)
    (project_data : ProjectCreate) : Project * Store :=
  let project := {|
    project_ident := project_id;
    project_name := pc_name project_data;
    project_description := pc_description project_data;
    project_location := pc_location project_data;
    project_created_at := now;
    territories_count := 0
  |} in
  (project,
   mkStore (<[project_id := project]> (PROJECTS st)) (TERRITORIES st)
     (ASSESSMENTS st) (osm_cache st)).

(** [GET /projects/{project_id}]. *)
Definition get_project (st : Store) (project_id : string) : result Project :=
  match PROJECTS st !! project_id with
  | Some p => Ok p
  | None => Raise (HTTPException 404 "Project not found")
  end.

(** The body of the loop of [delete_project] over [territories_to_delete]. *)
Definition delete_territory_step
    (stores : gmap string Territory * gmap string Assessment) (t_id : string)
  : gmap string Territory * gmap string Assessment :=
  let '(territories, assessments) := stores in
  let territories := delete t_id territories in
  let assessments :=
    if decide (t_id ∈ dom assessments) then delete t_id assessments
    else assessments in
  (territories, assessments).

(** [DELETE /projects/{project_id}].  The keys to delete are collected
    first, then removed one by one; the order in which the dictionary
    yields them does not change the stores that result. *)
Definition delete_project (st : Store) (project_id : string)
  : result string * Store :=
  if decide (project_id ∈ dom (PROJECTS st)) then
    let territories_to_delete :=
      (map_to_list
         (filter (fun kt => territory_project_id (snd kt) = project_id)
            (TERRITORIES st))).*1 in
    let '(territories, assessments) :=
      foldl delete_territory_step (TERRITORIES st, ASSESSMENTS st)
        territories_to_delete in
    (Ok "Project deleted",
     mkStore (delete project_id (PROJECTS st)) territories assessments
       (osm_cache st))
  else (Raise (HTTPException 404 "Project not found"), st).

(** ** Invariants of the stores *)

(** Every territory belongs to a stored project and every assessment to a
    stored territory. *)
Definition store_consistent (st : Store) : Prop :=
  (forall t_id t, TERRITORIES st !! t_id = Some t ->
     territory_project_id t ∈ dom (PROJECTS st)) /\
  (forall t_id, t_id ∈ dom (ASSESSMENTS st) -> t_id ∈ dom (TERRITORIES st)).

(** The territories of one project. *)
Definition territories_of (st : Store) (project_id : string)
  : gmap string Territory :=
  filter (fun kt => territory_project_id (snd kt) = project_id)
    (TERRITORIES st).

(** Every project's counter is the number of its territories. *)
Definition counts_accurate (st : Store) : Prop :=
  forall project_id p, PROJECTS st !! project_id = Some p ->
    territories_count p = Z.of_nat (size (territories_of st project_id)).

Definition empty_store : Store := mkStore ∅ ∅ ∅ empty_cache.

(** ** More sample inputs *)

(** A request whose polygon shapely measures as one square degree. *)
Definition square_request : TerritoryCreate :=
  mkTerritoryCreate "square" "p-1" [[[0; 0]; [1; 0]; [1; 1]; [0; 1]; [0; 0]]].

Definition square_env : Env := {|
  shapely_Polygon := fun _ => Ok (mkPolygon 1 (mkPoint 0.5 0.5));
  overpass := silent_overpass;
  uuid_territory := "t-1";
  uuid_assessment := "a-1";
  now_territory := "2024-01-01T00:00:00";
  now_assessment := "2024-01-01T00:00:01"
|}.

Definition demo_project_data : ProjectCreate :=
  mkProjectCreate "demo" None None.

(** A store holding one project, one territory of it and its assessment. *)
Definition square_territory : Territory :=
  mkTerritory "t-1" "square" "p-1" (tc_coordinates square_request)
    (1 * 111320 * 111320) 0.5 0.5 "2024-01-01T00:00:00".

Definition square_assessment : Assessment :=
  mkAssessment "a-1" "t-1" 50 40 30 50 42.5 msg_safety
    (mkMetrics (length <$> empty_amenities) 0) "2024-01-01T00:00:01".

Definition stocked_store : Store :=
  mkStore
    {[ "p-1" := mkProject "p-1" "demo" None None "2024-01-01T00:00:00" 1 ]}
    {[ "t-1" := square_territory ]}
    {[ "t-1" := square_assessment ]}
    empty_cache.

(** ** The efficiency scorer in binary64

    The scorers above read floats as real numbers, which keeps their
    returned values but not every exception: a float quotient can be 0.0
    where the real one is not.  The efficiency scorer is therefore given
    once more, operation for operation on binary64 values. *)

(** [float(n)] for the length of a list. *)
Definition f64_of_nat (n : nat) : float :=
  PrimFloat.of_uint63 (Uint63.of_Z (Z.of_nat n)).

(** Float division: a divisor equal to zero, of either sign, raises. *)
Definition f64_div (a b : float) : result float :=
  if PrimFloat.eqb b 0%float then Raise ZeroDivisionError
  else Ok (PrimFloat.div a b).

(** [min(a, b)]: [a] unless [b < a]. *)
Definition f64_min (a b : float) : float :=
  if PrimFloat.ltb b a then b else a.

Definition calculate_efficiency_score_f64 (roads : list RoadRecord)
    (area_sqm : float) (amenities : AmenitySet) : result float :=
  let score := 40%float in
  road_density ←
    f64_div (f64_of_nat (length roads))
      (PrimFloat.div area_sqm 1000000%float);
  let score :=
    if PrimFloat.ltb 10%float road_density then PrimFloat.add score 20%float
    else if PrimFloat.ltb 5%float road_density then PrimFloat.add score 15%float
    else if PrimFloat.ltb 2%float road_density then PrimFloat.add score 10%float
    else score in
  let score :=
    if truthy (amenities !! "bus_station") then PrimFloat.add score 15%float
    else score in
  let parking_count := length (getitem amenities "parking") in
  let score :=
    if (2 <? parking_count)%nat then PrimFloat.add score 10%float
    else if (0 <? parking_count)%nat then PrimFloat.add score 5%float
    else score in
  let commerce := (length (getitem amenities "restaurant") +
                   length (getitem amenities "cafe") +
                   length (getitem amenities "bank"))%nat in
  let score :=
    if (10 <? commerce)%nat then PrimFloat.add score 15%float
    else if (5 <? commerce)%nat then PrimFloat.add score 10%float
    else score in
  Ok (f64_min score 100%float).


(** ** The polygon stage of create_territory *)

(** What lines 358 to 369 read of the polygon shapely has built: its area,
    and the coordinates of its centroid.  The polygon of an empty ring is
    shapely's empty polygon: its area is 0 and its centroid is the empty
    point, whose coordinates cannot be read. *)
Record Geometry := mkGeometry {
  geometry_area : R;
  geometry_centroid : option Point
}.

Definition read_geometry (g : Geometry) : result Polygon :=
  match geometry_centroid g with
  | Some c => Ok (mkPolygon (geometry_area g) c)
  | None => Raise ShapelyError
  end.

Definition empty_geometry : Geometry := mkGeometry 0 None.

(** The request with coordinates [[[]]], and a shapely that answers its
    empty ring with the empty polygon. *)
Definition empty_ring_request : TerritoryCreate :=
  mkTerritoryCreate "empty" "p-1" [[]].

Definition empty_ring_env : Env := {|
  shapely_Polygon := fun ring =>
    match ring with
    | [] => read_geometry empty_geometry
    | _ => read_geometry (mkGeometry 1 (Some (mkPoint 0.5 0.5)))
    end;
  overpass := silent_overpass;
  uuid_territory := "t-1";
  uuid_assessment := "a-1";
  now_territory := "2024-01-01T00:00:00";
  now_assessment := "2024-01-01T00:00:01"
|}.

(** * Properties *)

(** ** GeoMath *)

Lemma radians_0 : radians 0 = 0.
Proof. unfold radians. lra. Qed.

Lemma radians_opp (d : R) : radians (- d) = - radians d.
Proof. unfold radians. lra. Qed.

Lemma atan2_0_1 : atan2 0 1 = 0.
Proof.
  unfold atan2. destruct (Rlt_dec 0 1) as [_ | H]; [| lra].
  replace (0 / 1) with 0 by lra. apply atan_0.
Qed.

Lemma sin_half_sq_opp (d : R) : sin (- d / 2) ^ 2 = sin (d / 2) ^ 2.
Proof.
  replace (- d / 2) with (- (d / 2)) by lra.
  rewrite sin_neg. simpl. lra.
Qed.

Lemma haversine_distance_self (lat lon : R) :
  haversine_distance lat lon lat lon = 0.
Proof.
  unfold haversine_distance.
  replace (lat - lat) with 0 by lra.
  replace (lon - lon) with 0 by lra.
  rewrite radians_0.
  replace (0 / 2) with 0 by lra.
  rewrite sin_0.
  replace (0 ^ 2 + cos (radians lat) * cos (radians lat) * 0 ^ 2) with 0
    by (simpl; lra).
  replace (1 - 0) with 1 by lra.
  rewrite sqrt_0, sqrt_1, atan2_0_1. lra.
Qed.

Lemma haversine_distance_sym (lat1 lon1 lat2 lon2 : R) :
  haversine_distance lat1 lon1 lat2 lon2 =
  haversine_distance lat2 lon2 lat1 lon1.
Proof.
  unfold haversine_distance.
  replace (lat1 - lat2) with (- (lat2 - lat1)) by lra.
  replace (lon1 - lon2) with (- (lon2 - lon1)) by lra.
  rewrite !radians_opp, !sin_half_sq_opp.
  rewrite (Rmult_comm (cos (radians lat2)) (cos (radians lat1))).
  reflexivity.
Qed.

(** C8: the distance from a point to itself is 0, and the distance is the
    same in both directions. *)
Theorem haversine_distance_zero_and_symmetric :
  (forall p : Point,
     haversine_distance (pt_y p) (pt_x p) (pt_y p) (pt_x p) = 0) /\
  (forall a b : Point,
     haversine_distance (pt_y a) (pt_x a) (pt_y b) (pt_x b) =
     haversine_distance (pt_y b) (pt_x b) (pt_y a) (pt_x a)).
Proof.
  split.
  - intros p. apply haversine_distance_self.
  - intros a b. apply haversine_distance_sym.
Qed.

(** ** find_closest *)

Lemma find_closest_nil (p : Point) : find_closest p [] = None.
Proof. reflexivity. Qed.

Lemma foldl_py_min_Fin (p : Point) (l : list AmenityRecord) (m : R) :
  exists d,
    foldl (fun min_dist amenity =>
             py_min min_dist
               (haversine_distance (pt_y p) (pt_x p)
                  (am_lat amenity) (am_lon amenity)))
          (Fin m) l = Fin d /\ d <= m.
Proof.
  revert m. induction l as [| a l IH]; intros m; simpl.
  - exists m. split; [reflexivity | lra].
  - destruct (IH (Rmin m (haversine_distance (pt_y p) (pt_x p)
                            (am_lat a) (am_lon a)))) as (d & Hd & Hle).
    exists d. split; [exact Hd |].
    pose proof (Rmin_l m (haversine_distance (pt_y p) (pt_x p)
                            (am_lat a) (am_lon a))). lra.
Qed.

(** On a non-empty list the loop always leaves a finite minimum. *)
Lemma find_closest_cons (p : Point) (a : AmenityRecord)
    (l : list AmenityRecord) :
  exists d, find_closest p (a :: l) = Some d /\
            d <= haversine_distance (pt_y p) (pt_x p) (am_lat a) (am_lon a).
Proof.
  unfold find_closest. simpl.
  destruct (foldl_py_min_Fin p l
              (haversine_distance (pt_y p) (pt_x p) (am_lat a) (am_lon a)))
    as (d & Hd & Hle).
  rewrite Hd. eauto.
Qed.

Lemma find_closest_singleton (p : Point) (a : AmenityRecord) :
  find_closest p [a] =
  Some (haversine_distance (pt_y p) (pt_x p) (am_lat a) (am_lon a)).
Proof. reflexivity. Qed.

(** An amenity standing on the point itself is at distance 0. *)
Lemma find_closest_self (p : Point) (i : Z) (tags : list (string * string)) :
  find_closest p [mkAmenity i (pt_y p) (pt_x p) tags] = Some 0.
Proof.
  rewrite find_closest_singleton. simpl.
  by rewrite haversine_distance_self.
Qed.

(** ** Score bounds *)

Lemma Rmin_100_bounds (s : R) : 0 <= s -> 0 <= Rmin s 100 <= 100.
Proof.
  intros Hs. unfold Rmin. destruct (Rle_dec s 100); lra.
Qed.


Lemma efficiency_score_bounds (roads : list RoadRecord) (area_sqm : R)
    (amenities : AmenitySet) :
  area_sqm <> 0 ->
  exists e, calculate_efficiency_score roads area_sqm amenities = Ok e /\
            0 <= e <= 100.
Proof.
  intros Harea. unfold calculate_efficiency_score, py_div.
  destruct (Req_dec_T (area_sqm / 1000000) 0) as [Hz | _]; [lra |].
  eexists. split; [reflexivity |]. apply Rmin_100_bounds.
  repeat match goal with
         | |- context [if ?b then _ else _] => destruct b
         end; lra.
Qed.

Lemma accessibility_step_mono (c : Point) (amenities : AmenitySet) (s : R)
    (item : string * (R * R)) :
  0 <= snd (snd item) -> s <= accessibility_step c amenities s item.
Proof.
  destruct item as [service [max_dist points]]. simpl. intros Hp.
  repeat match goal with
         | |- context [if ?b then _ else _] => destruct b
         end; lra.
Qed.

Lemma accessibility_fold_mono (c : Point) (amenities : AmenitySet)
    (items : list (string * (R * R))) (s : R) :
  Forall (fun item => 0 <= snd (snd item)) items ->
  s <= foldl (accessibility_step c amenities) s items.
Proof.
  intros H. revert s. induction H as [| item items Hp _ IH]; intros s; simpl.
  - lra.
  - pose proof (accessibility_step_mono c amenities s item Hp).
    pose proof (IH (accessibility_step c amenities s item)). lra.
Qed.

Lemma services_points_nonneg :
  Forall (fun item : string * (R * R) => 0 <= snd (snd item)) services.
Proof. unfold services. repeat constructor; simpl; lra. Qed.





(** ** The safety formula *)

Lemma getitem_truthy (amenities : AmenitySet) (key : string) :
  truthy (amenities !! key) = false -> getitem amenities key = [].
Proof.
  unfold getitem. destruct (amenities !! key) as [[| a l] |]; simpl; congruence.
Qed.

Lemma dist_and_lt_zero (bound : R) : dist_and_lt (Some 0) bound = false.
Proof.
  unfold dist_and_lt. destruct (Req_dec_T 0 0) as [_ | H]; [reflexivity | lra].
Qed.

Lemma dist_and_lt_nonzero (d bound : R) :
  d <> 0 -> dist_and_lt (Some d) bound = if Rlt_dec d bound then true else false.
Proof.
  intros Hd. unfold dist_and_lt. destruct (Req_dec_T d 0); [lra | reflexivity].
Qed.

(** At exactly the bound the strict test fails. *)
Lemma dist_and_lt_boundary (bound : R) : dist_and_lt (Some bound) bound = false.
Proof.
  unfold dist_and_lt. destruct (Req_dec_T bound 0); [reflexivity |].
  destruct (Rlt_dec bound bound); [lra | reflexivity].
Qed.

(** One category block of a scorer adds the specification's bonus, provided
    the nearest amenity is not at distance 0. *)
Lemma category_block_spec (c : Point) (amenities : AmenitySet) (key : string)
    (near far full part score : R) :
  find_closest c (getitem amenities key) <> Some 0 ->
  (if truthy (amenities !! key) then
     if dist_and_lt (find_closest c (getitem amenities key)) near
     then score + full
     else if dist_and_lt (find_closest c (getitem amenities key)) far
          then score + part
          else score
   else score) =
  score + spec_category_bonus (find_closest c (getitem amenities key))
            near far full part.
Proof.
  intros Hnz. destruct (truthy (amenities !! key)) eqn:Ht.
  - destruct (find_closest c (getitem amenities key)) as [d |] eqn:Hd.
    + assert (d <> 0) by congruence.
      rewrite !dist_and_lt_nonzero by assumption. simpl.
      destruct (Rlt_dec d near); [reflexivity |].
      destruct (Rlt_dec d far); [reflexivity | lra].
    + simpl. lra.
  - rewrite (getitem_truthy _ _ Ht). simpl. lra.
Qed.

(** Away from distance 0 the scorer is the specification's formula. *)
Lemma safety_score_spec_off_zero (c : Point) (amenities : AmenitySet) :
  find_closest c (getitem amenities "police") <> Some 0 ->
  find_closest c (getitem amenities "fire_station") <> Some 0 ->
  find_closest c (getitem amenities "hospital") <> Some 0 ->
  calculate_safety_score c amenities = spec_safetyScore c amenities.
Proof.
  intros Hp Hf Hh. unfold calculate_safety_score, spec_safetyScore.
  cbv zeta.
  rewrite (category_block_spec c amenities "police") by assumption.
  rewrite (category_block_spec c amenities "fire_station") by assumption.
  rewrite (category_block_spec c amenities "hospital") by assumption.
  reflexivity.
Qed.

(** A police station at exactly 2000 m earns the 10 points of the wider
    ring, not the 20 of the inner one. *)
Lemma police_at_2000_gets_10 (c : Point) (amenities : AmenitySet) :
  truthy (amenities !! "police") = true ->
  find_closest c (getitem amenities "police") = Some 2000 ->
  truthy (amenities !! "fire_station") = false ->
  truthy (amenities !! "hospital") = false ->
  calculate_safety_score c amenities = 60.
Proof.
  intros Hp Hd Hf Hh. unfold calculate_safety_score.
  rewrite Hp, Hd, Hf, Hh, dist_and_lt_boundary.
  rewrite dist_and_lt_nonzero by lra.
  destruct (Rlt_dec 2000 5000); [| lra].
  unfold Rmin. destruct (Rle_dec (50 + 10) 100); lra.
Qed.

Lemma find_closest_at_origin :
  find_closest origin [amenity_at_origin] = Some 0.
Proof. exact (find_closest_self origin 1 []). Qed.

(** C3: with one police station standing on the centroid and no other
    amenity, the scorer returns 50 where the specification's formula
    gives 70. *)
Theorem safety_score_police_on_centroid :
  calculate_safety_score origin police_on_centroid = 50 /\
  spec_safetyScore origin police_on_centroid = 70.
Proof.
  split.
  - unfold calculate_safety_score.
    change (police_on_centroid !! "police") with (Some [amenity_at_origin]).
    change (police_on_centroid !! "fire_station")
      with (Some ([] : list AmenityRecord)).
    change (police_on_centroid !! "hospital")
      with (Some ([] : list AmenityRecord)).
    change (getitem police_on_centroid "police") with [amenity_at_origin].
    simpl truthy. cbv iota zeta.
    rewrite find_closest_at_origin, !dist_and_lt_zero.
    unfold Rmin. destruct (Rle_dec 50 100); lra.
  - unfold spec_safetyScore.
    change (getitem police_on_centroid "police") with [amenity_at_origin].
    change (getitem police_on_centroid "fire_station")
      with ([] : list AmenityRecord).
    change (getitem police_on_centroid "hospital")
      with ([] : list AmenityRecord).
    rewrite find_closest_at_origin, find_closest_nil. simpl.
    destruct (Rlt_dec 0 2000); [| lra].
    unfold Rmin. destruct (Rle_dec (50 + 20 + 0 + 0) 100); lra.
Qed.

(** ** Distance 0 counts as no amenity *)

Lemma getitem_delete_ne (amenities : AmenitySet) (k key : string) :
  k <> key -> getitem (delete k amenities) key = getitem amenities key.
Proof. intros Hne. unfold getitem. by rewrite lookup_delete_ne. Qed.

(** A category block on the amenity set without category [k], when the
    nearest amenity of [k] is at distance 0: the block adds what it adds on
    the full set. *)
Lemma category_block_delete (c : Point) (amenities : AmenitySet)
    (k key : string) (near far full part score : R) :
  find_closest c (getitem amenities k) = Some 0 ->
  (if truthy (delete k amenities !! key) then
     if dist_and_lt (find_closest c (getitem (delete k amenities) key)) near
     then score + full
     else if dist_and_lt (find_closest c (getitem (delete k amenities) key)) far
          then score + part
          else score
   else score) =
  (if truthy (amenities !! key) then
     if dist_and_lt (find_closest c (getitem amenities key)) near
     then score + full
     else if dist_and_lt (find_closest c (getitem amenities key)) far
          then score + part
          else score
   else score).
Proof.
  intros Hz. destruct (decide (k = key)) as [-> | Hne].
  - rewrite lookup_delete_eq, Hz, !dist_and_lt_zero. simpl.
    by destruct (truthy (amenities !! key)).
  - by rewrite lookup_delete_ne, getitem_delete_ne.
Qed.

Lemma accessibility_step_delete (c : Point) (amenities : AmenitySet)
    (k : string) (score : R) (item : string * (R * R)) :
  find_closest c (getitem amenities k) = Some 0 ->
  accessibility_step c (delete k amenities) score item =
  accessibility_step c amenities score item.
Proof.
  intros Hz. destruct item as [service [max_dist points]].
  unfold accessibility_step.
  apply (category_block_delete c amenities k service max_dist (max_dist * 2)
           points (points / 2) score Hz).
Qed.

Lemma accessibility_fold_delete (c : Point) (amenities : AmenitySet)
    (k : string) (items : list (string * (R * R))) (score : R) :
  find_closest c (getitem amenities k) = Some 0 ->
  foldl (accessibility_step c (delete k amenities)) score items =
  foldl (accessibility_step c amenities) score items.
Proof.
  intros Hz. revert score. induction items as [| item items IH]; intros score.
  - reflexivity.
  - simpl. by rewrite accessibility_step_delete, IH.
Qed.

(** C9: [find_closest] tells an empty list ([None]) from an amenity on the
    centroid ([Some 0]), yet when the nearest amenity of a category is at
    distance 0 the safety and the accessibility scorer return what they
    return on the amenity set without that category. *)
Theorem zero_distance_scored_as_absent (c : Point) (amenities : AmenitySet)
    (k : string) :
  find_closest c (getitem amenities k) = Some 0 ->
  find_closest c [] = None /\
  find_closest c (getitem amenities k) <> find_closest c [] /\
  calculate_safety_score c amenities =
    calculate_safety_score c (delete k amenities) /\
  calculate_accessibility_score c amenities =
    calculate_accessibility_score c (delete k amenities).
Proof.
  intros Hz. split; [reflexivity |]. split; [by rewrite Hz |]. split.
  - unfold calculate_safety_score. cbv zeta.
    rewrite (category_block_delete c amenities k "police" _ _ _ _ _ Hz).
    rewrite (category_block_delete c amenities k "fire_station" _ _ _ _ _ Hz).
    rewrite (category_block_delete c amenities k "hospital" _ _ _ _ _ Hz).
    reflexivity.
  - unfold calculate_accessibility_score. cbv zeta.
    by rewrite accessibility_fold_delete.
Qed.

(** ** Rounding *)

Lemma round_half_even_IZR (z : Z) : round_half_even (IZR z) = z.
Proof.
  unfold round_half_even.
  assert (Hz : Int_part (IZR z) = z).
  { symmetry. apply Int_part_spec. lra. }
  rewrite Hz.
  destruct (Rlt_dec (IZR z - IZR z) (1 / 2)); [reflexivity | lra].
Qed.

(** A value with at most [ndigits] decimals is its own rounding. *)
Lemma py_round_exact (x : R) (ndigits : nat) (z : Z) :
  x * 10 ^ ndigits = IZR z -> py_round x ndigits = x.
Proof.
  intros Hx. unfold py_round. rewrite Hx, round_half_even_IZR, <- Hx.
  assert (10 ^ ndigits <> 0) by (apply pow_nonzero; lra).
  by field.
Qed.

(** ** Recommendations *)

(** C10: when accessibility is below 60 but schools, hospitals and parks
    are all present, the accessibility rule adds no message: the list is
    the one any accessibility of at least 60 gives; and if the other three
    scores are at least 60 the output is the single well-developed
    message. *)
Theorem accessibility_rule_silent_when_nothing_missing
    (safety efficiency accessibility environmental : R)
    (amenities : AmenitySet) :
  accessibility < 60 ->
  truthy (amenities !! "school") = true ->
  truthy (amenities !! "hospital") = true ->
  truthy (amenities !! "park") = true ->
  (forall accessibility', 60 <= accessibility' ->
     recommendation_list safety efficiency accessibility environmental
       amenities =
     recommendation_list safety efficiency accessibility' environmental
       amenities) /\
  (60 <= safety -> 60 <= efficiency -> 60 <= environmental ->
   generate_recommendations safety efficiency accessibility environmental
     amenities = msg_well_developed).
Proof.
  intros Ha Hs Hh Hp. split.
  - intros a' Ha'. unfold recommendation_list.
    rewrite Hs, Hh, Hp. simpl negb. cbv iota zeta.
    destruct (Rlt_dec accessibility 60), (Rlt_dec a' 60); try lra.
    reflexivity.
  - intros H1 H2 H3. unfold generate_recommendations, recommendation_list.
    rewrite Hs, Hh, Hp. simpl negb. cbv iota zeta.
    destruct (Rlt_dec safety 60); [lra |].
    destruct (Rlt_dec efficiency 60); [lra |].
    destruct (Rlt_dec environmental 60); [lra |].
    destruct (Rlt_dec accessibility 60); reflexivity.
Qed.

(** ** The worked example *)



(** ** The assessment record *)

(** C2: whenever the area is not 0 the [try] block builds an assessment;
    its overall score is the mean of the four scores as the scorers
    returned them, rounded to 2 decimals afterwards, and each stored
    sub-score is that scorer's value rounded to 2 decimals on its own. *)
Theorem overall_score_rounds_unrounded_mean (env : Env) (cache : Cache)
    (tid : string) (c : Point) (area_sqm : R)
    (coords : list (list (list R))) :
  area_sqm <> 0 ->
  let amenities :=
    fst (get_amenities_in_area (overpass env) cache (pt_y c) (pt_x c) 1000) in
  let roads := get_roads_in_polygon (overpass env) coords in
  let safety := calculate_safety_score c amenities in
  let accessibility := calculate_accessibility_score c amenities in
  let environmental := calculate_environmental_score amenities in
  exists efficiency a,
    calculate_efficiency_score roads area_sqm amenities = Ok efficiency /\
    fst (assess env cache tid c area_sqm coords) = Ok a /\
    overall_score a =
      py_round ((safety + efficiency + accessibility + environmental) / 4) 2 /\
    safety_score a = py_round safety 2 /\
    efficiency_score a = py_round efficiency 2 /\
    accessibility_score a = py_round accessibility 2 /\
    environmental_score a = py_round environmental 2.
Proof.
  intros Harea. unfold assess.
  destruct (get_amenities_in_area (overpass env) cache (pt_y c) (pt_x c) 1000)
    as [amenities cache0] eqn:Hfetch.
  cbn [fst]. cbv zeta.
  destruct (efficiency_score_bounds
              (get_roads_in_polygon (overpass env) coords) area_sqm amenities
              Harea) as (efficiency & Heff & _).
  rewrite Heff. exists efficiency. eexists.
  split; [reflexivity |]. split; [reflexivity |].
  simpl. repeat split; reflexivity.
Qed.

(** ** The gateway *)

Lemma fetch_step_insert (o : Overpass) (lat lon : R) (results : AmenitySet)
    (amenity : string) :
  fetch_step o lat lon results amenity =
  <[amenity := category_result o lat lon amenity]> results.
Proof.
  unfold fetch_step, category_result.
  by destruct (query_nodes o _ amenity).
Qed.

Lemma fetch_fold_lookup (o : Overpass) (lat lon : R) (types : list string)
    (results : AmenitySet) (amenity : string) :
  foldl (fetch_step o lat lon) results types !! amenity =
  if decide (amenity ∈ types) then Some (category_result o lat lon amenity)
  else results !! amenity.
Proof.
  revert results. induction types as [| t types IH]; intros results;
    cbn [foldl].
  - rewrite decide_False; [reflexivity | apply not_elem_of_nil].
  - rewrite IH, fetch_step_insert.
    destruct (decide (amenity ∈ types)) as [Hin | Hnin].
    + rewrite decide_True; [reflexivity | by right].
    + destruct (decide (amenity = t)) as [-> | Hne].
      * rewrite lookup_insert_eq, decide_True; [reflexivity | by left].
      * rewrite lookup_insert_ne by done.
        rewrite decide_False; [reflexivity |].
        intros Hin. apply elem_of_cons in Hin as [? | ?]; contradiction.
Qed.

Lemma cache_complete_empty : cache_complete empty_cache.
Proof. intros k cached H. discriminate. Qed.

(** C6: the fetch always returns an amenity set, in which each of the 14
    amenity types is a key; it keeps the cache invariant; and when it goes
    to Overpass (no cached entry) each amenity type gets the nodes of its
    own query, or the empty list if that query raised, whatever the other
    queries did. *)
Theorem get_amenities_in_area_total_and_complete (o : Overpass)
    (cache : Cache) (lat lon : R) (radius : Z) :
  cache_complete cache ->
  length amenity_types = 14%nat /\
  NoDup amenity_types /\
  (forall amenity, amenity ∈ amenity_types ->
     is_Some (fst (get_amenities_in_area o cache lat lon radius) !! amenity)) /\
  cache_complete (snd (get_amenities_in_area o cache lat lon radius)) /\
  (cache (lat, lon, radius) = None ->
   forall amenity, amenity ∈ amenity_types ->
     fst (get_amenities_in_area o cache lat lon radius) !! amenity =
     Some (match query_nodes o
                   [lat - 0.01; lon - 0.01; lat + 0.01; lon + 0.01] amenity with
           | Ok amenities => amenities
           | Raise _ => []
           end)).
Proof.
  intros Hcache.
  assert (Hmiss : forall amenity, amenity ∈ amenity_types ->
            foldl (fetch_step o lat lon) ∅ amenity_types !! amenity =
            Some (category_result o lat lon amenity)).
  { intros a Ha. rewrite fetch_fold_lookup. by rewrite decide_True. }
  split; [reflexivity |].
  split; [unfold amenity_types; by apply (bool_decide_unpack _) |].
  unfold get_amenities_in_area.
  destruct (cache (lat, lon, radius)) as [cached |] eqn:Hkey; cbn [fst snd].
  - split; [| split].
    + intros a Ha. exact (Hcache _ _ Hkey a Ha).
    + exact Hcache.
    + discriminate.
  - split; [| split].
    + intros a Ha. rewrite (Hmiss a Ha). eauto.
    + intros k cached Hk a Ha. unfold cache_set in Hk.
      destruct (CacheKey_eq_dec (lat, lon, radius) k).
      * replace cached with (foldl (fetch_step o lat lon) ∅ amenity_types)
          by congruence.
        rewrite (Hmiss a Ha). eauto.
      * exact (Hcache _ _ Hk a Ha).
    + intros _ a Ha. exact (Hmiss a Ha).
Qed.

(** ** The create-territory handler *)

(** The territory record the handler builds from a request and its polygon. *)
Lemma create_territory_outcome (env : Env) (st : Store)
    (data : TerritoryCreate) (polygon : Polygon) :
  tc_project_id data ∈ dom (PROJECTS st) ->
  (ring ← index (tc_coordinates data) 0; shapely_Polygon env ring)
    = Ok polygon ->
  let tid := uuid_territory env in
  let territory :=
    mkTerritory tid (tc_name data) (tc_project_id data) (tc_coordinates data)
      (area polygon * 111320 * 111320)
      (pt_y (centroid polygon)) (pt_x (centroid polygon))
      (now_territory env) in
  let run :=
    assess env (osm_cache st) tid (centroid polygon)
      (area polygon * 111320 * 111320) (tc_coordinates data) in
  create_territory env st data =
    (Ok territory,
     mkStore
       (alter bump_territories_count (tc_project_id data) (PROJECTS st))
       (<[tid := territory]> (TERRITORIES st))
       (match fst run with
        | Ok assessment => <[tid := assessment]> (ASSESSMENTS st)
        | Raise _ => ASSESSMENTS st
        end)
       (snd run)).
Proof.
  intros Hproj Hpoly. unfold create_territory.
  rewrite decide_True by exact Hproj. rewrite Hpoly. cbv zeta.
  by destruct (assess env (osm_cache st) (uuid_territory env)
                 (centroid polygon) (area polygon * 111320 * 111320)
                 (tc_coordinates data)) as [outcome cache].
Qed.

(** C5: when the project exists, the polygon is built and the [try] block
    raises, the handler still answers with the territory (identifier,
    geometry, area and centroid) and stores it, the assessment store is
    left as it was, and a lookup of the assessment of this territory, whose
    identifier is new, answers 404. *)
Theorem failed_assessment_keeps_territory_only (env : Env) (st : Store)
    (data : TerritoryCreate) (polygon : Polygon) (e : exn) :
  tc_project_id data ∈ dom (PROJECTS st) ->
  (ring ← index (tc_coordinates data) 0; shapely_Polygon env ring)
    = Ok polygon ->
  ASSESSMENTS st !! uuid_territory env = None ->
  fst (assess env (osm_cache st) (uuid_territory env) (centroid polygon)
         (area polygon * 111320 * 111320) (tc_coordinates data)) = Raise e ->
  exists territory st',
    create_territory env st data = (Ok territory, st') /\
    territory_ident territory = uuid_territory env /\
    coordinates territory = tc_coordinates data /\
    area_sqm territory = area polygon * 111320 * 111320 /\
    centroid_lat territory = pt_y (centroid polygon) /\
    centroid_lon territory = pt_x (centroid polygon) /\
    get_territory st' (uuid_territory env) = Ok territory /\
    ASSESSMENTS st' = ASSESSMENTS st /\
    get_assessment st' (uuid_territory env) =
      Raise (HTTPException 404 "Assessment not found").
Proof.
  intros Hproj Hpoly Hfresh Hraise.
  pose proof (create_territory_outcome env st data polygon Hproj Hpoly) as Hrun.
  cbv zeta in Hrun. rewrite Hraise in Hrun.
  eexists _, _. split; [exact Hrun |].
  repeat split.
  - unfold get_territory. simpl. by rewrite lookup_insert_eq.
  - unfold get_assessment. simpl. by rewrite Hfresh.
Qed.

Lemma efficiency_zero_area (roads : list RoadRecord) (amenities : AmenitySet) :
  calculate_efficiency_score roads 0 amenities = Raise ZeroDivisionError.
Proof.
  unfold calculate_efficiency_score, py_div.
  destruct (Req_dec_T (0 / 1000000) 0) as [_ | H]; [reflexivity | lra].
Qed.

Lemma assess_zero_area (env : Env) (cache : Cache) (tid : string) (c : Point)
    (coords : list (list (list R))) :
  fst (assess env cache tid c 0 coords) = Raise ZeroDivisionError.
Proof.
  unfold assess.
  destruct (get_amenities_in_area (overpass env) cache (pt_y c) (pt_x c) 1000)
    as [amenities cache0].
  cbv zeta. cbn [fst]. by rewrite efficiency_zero_area.
Qed.

(** C7, amended: when the polygon stage succeeds, which includes reading
    the centroid, and the area is 0, the road density raises
    [ZeroDivisionError], no assessment comes out of the [try] block, and
    the handler still answers with the territory, which it has stored,
    leaving the assessments as they were. *)
Theorem zero_area_territory_with_centroid_is_created (env : Env) (st : Store)
    (data : TerritoryCreate) (polygon : Polygon) :
  tc_project_id data ∈ dom (PROJECTS st) ->
  (ring ← index (tc_coordinates data) 0; shapely_Polygon env ring)
    = Ok polygon ->
  area polygon = 0 ->
  (forall roads amenities,
     calculate_efficiency_score roads (area polygon * 111320 * 111320)
       amenities = Raise ZeroDivisionError) /\
  exists territory st',
    create_territory env st data = (Ok territory, st') /\
    area_sqm territory = 0 /\
    TERRITORIES st' !! uuid_territory env = Some territory /\
    get_territory st' (uuid_territory env) = Ok territory /\
    ASSESSMENTS st' = ASSESSMENTS st.
Proof.
  intros Hproj Hpoly Harea.
  pose proof (create_territory_outcome env st data polygon Hproj Hpoly) as Hrun.
  cbv zeta in Hrun.
  assert (Hz : area polygon * 111320 * 111320 = 0) by (rewrite Harea; lra).
  split.
  - intros roads amenities. rewrite Hz. apply efficiency_zero_area.
  - rewrite Hz in Hrun. rewrite assess_zero_area in Hrun.
    eexists _, _. split; [exact Hrun |].
    cbn [area_sqm TERRITORIES ASSESSMENTS].
    split; [reflexivity |].
    unfold get_territory. cbn [TERRITORIES].
    rewrite lookup_insert_eq. repeat split.
Qed.

(** * The theorems on the sample inputs *)

Lemma overall_score_rounds_unrounded_mean_witness :
  1000000 <> 0 /\
  (let amenities :=
     fst (get_amenities_in_area (overpass flat_env) empty_cache
            (pt_y origin) (pt_x origin) 1000) in
   let roads := get_roads_in_polygon (overpass flat_env) [] in
   let safety := calculate_safety_score origin amenities in
   let accessibility := calculate_accessibility_score origin amenities in
   let environmental := calculate_environmental_score amenities in
   exists efficiency a,
     calculate_efficiency_score roads 1000000 amenities = Ok efficiency /\
     fst (assess flat_env empty_cache "t-1" origin 1000000 []) = Ok a /\
     overall_score a =
       py_round ((safety + efficiency + accessibility + environmental) / 4) 2 /\
     safety_score a = py_round safety 2 /\
     efficiency_score a = py_round efficiency 2 /\
     accessibility_score a = py_round accessibility 2 /\
     environmental_score a = py_round environmental 2).
Proof.
  assert (H : 1000000 <> 0) by lra.
  split; [exact H |].
  exact (overall_score_rounds_unrounded_mean flat_env empty_cache "t-1" origin
           1000000 [] H).
Defined.



Lemma get_amenities_in_area_total_and_complete_witness :
  cache_complete empty_cache /\
  (forall amenity, amenity ∈ amenity_types ->
     is_Some (fst (get_amenities_in_area police_down_overpass empty_cache
                     0 0 1000) !! amenity)) /\
  fst (get_amenities_in_area police_down_overpass empty_cache 0 0 1000)
    !! "police" = Some [] /\
  fst (get_amenities_in_area police_down_overpass empty_cache 0 0 1000)
    !! "school" = Some [amenity_at_origin].
Proof.
  split; [exact cache_complete_empty |].
  destruct (get_amenities_in_area_total_and_complete police_down_overpass
              empty_cache 0 0 1000 cache_complete_empty)
    as (_ & _ & Hkeys & _ & Hmiss).
  split; [exact Hkeys |].
  split.
  - apply (Hmiss eq_refl "police").
    apply list_elem_of_In. simpl. tauto.
  - apply (Hmiss eq_refl "school").
    apply list_elem_of_In. simpl. tauto.
Defined.

Lemma zero_distance_scored_as_absent_witness :
  find_closest origin (getitem police_on_centroid "police") = Some 0 /\
  calculate_safety_score origin police_on_centroid =
    calculate_safety_score origin (delete "police" police_on_centroid) /\
  calculate_accessibility_score origin police_on_centroid =
    calculate_accessibility_score origin (delete "police" police_on_centroid).
Proof.
  split; [exact find_closest_at_origin |].
  destruct (zero_distance_scored_as_absent origin police_on_centroid "police"
              find_closest_at_origin) as (_ & _ & Hs & Ha).
  exact (conj Hs Ha).
Defined.

Lemma accessibility_rule_silent_when_nothing_missing_witness :
  40 < 60 /\
  truthy (served_amenities !! "school") = true /\
  truthy (served_amenities !! "hospital") = true /\
  truthy (served_amenities !! "park") = true /\
  generate_recommendations 70 70 40 70 served_amenities = msg_well_developed.
Proof.
  assert (H : 40 < 60) by lra.
  repeat (split; [first [exact H | reflexivity] |]).
  apply (accessibility_rule_silent_when_nothing_missing 70 70 40 70
           served_amenities H eq_refl eq_refl eq_refl); lra.
Defined.

Lemma flat_request_project :
  tc_project_id flat_request ∈ dom (PROJECTS one_project_store).
Proof. apply elem_of_dom. eexists. reflexivity. Qed.

Lemma flat_request_polygon :
  (ring ← index (tc_coordinates flat_request) 0; shapely_Polygon flat_env ring)
    = Ok (mkPolygon 0 (mkPoint 1 0)).
Proof. reflexivity. Qed.

Lemma flat_request_raises :
  fst (assess flat_env (osm_cache one_project_store) (uuid_territory flat_env)
         (centroid (mkPolygon 0 (mkPoint 1 0)))
         (area (mkPolygon 0 (mkPoint 1 0)) * 111320 * 111320)
         (tc_coordinates flat_request)) = Raise ZeroDivisionError.
Proof.
  replace (area (mkPolygon 0 (mkPoint 1 0)) * 111320 * 111320) with 0
    by (simpl; lra).
  apply assess_zero_area.
Qed.

Lemma failed_assessment_keeps_territory_only_witness :
  ASSESSMENTS one_project_store !! uuid_territory flat_env = None /\
  exists territory st',
    create_territory flat_env one_project_store flat_request
      = (Ok territory, st') /\
    territory_ident territory = uuid_territory flat_env /\
    coordinates territory = tc_coordinates flat_request /\
    area_sqm territory = area (mkPolygon 0 (mkPoint 1 0)) * 111320 * 111320 /\
    centroid_lat territory = pt_y (centroid (mkPolygon 0 (mkPoint 1 0))) /\
    centroid_lon territory = pt_x (centroid (mkPolygon 0 (mkPoint 1 0))) /\
    get_territory st' (uuid_territory flat_env) = Ok territory /\
    ASSESSMENTS st' = ASSESSMENTS one_project_store /\
    get_assessment st' (uuid_territory flat_env) =
      Raise (HTTPException 404 "Assessment not found").
Proof.
  split; [reflexivity |].
  exact (failed_assessment_keeps_territory_only flat_env one_project_store
           flat_request (mkPolygon 0 (mkPoint 1 0)) ZeroDivisionError
           flat_request_project flat_request_polygon eq_refl
           flat_request_raises).
Defined.

(** C7 as it is stated fails: the empty ring gives shapely's empty polygon,
    whose area is 0; reading its centroid raises before anything is stored,
    so the handler raises and the territory is not persisted. *)
Lemma empty_polygon_request_crashes :
  tc_project_id empty_ring_request ∈ dom (PROJECTS one_project_store) /\
  index (tc_coordinates empty_ring_request) 0 = Ok [] /\
  shapely_Polygon empty_ring_env [] = read_geometry empty_geometry /\
  geometry_area empty_geometry = 0 /\
  create_territory empty_ring_env one_project_store empty_ring_request =
    (Raise ShapelyError, one_project_store) /\
  get_territory one_project_store (uuid_territory empty_ring_env) =
    Raise (HTTPException 404 "Territory not found").
Proof.
  split; [exact flat_request_project |].
  split; [reflexivity |]. split; [reflexivity |]. split; [reflexivity |].
  split; [| reflexivity].
  unfold create_territory.
  rewrite decide_True by exact flat_request_project.
  reflexivity.
Qed.

Lemma zero_area_territory_with_centroid_is_created_witness :
  area (mkPolygon 0 (mkPoint 1 0)) = 0 /\
  exists territory st',
    create_territory flat_env one_project_store flat_request
      = (Ok territory, st') /\
    area_sqm territory = 0 /\
    TERRITORIES st' !! uuid_territory flat_env = Some territory /\
    get_territory st' (uuid_territory flat_env) = Ok territory /\
    ASSESSMENTS st' = ASSESSMENTS one_project_store.
Proof.
  split; [reflexivity |].
  exact (proj2 (zero_area_territory_with_centroid_is_created flat_env
                  one_project_store flat_request (mkPolygon 0 (mkPoint 1 0))
                  flat_request_project flat_request_polygon eq_refl)).
Defined.

(** * Further properties of the code *)

(** ** Range of the distance *)

Lemma atan2_quadrant (y x : R) :
  0 <= y -> 0 <= x -> 0 <= atan2 y x <= PI / 2.
Proof.
  intros Hy Hx. pose proof PI_RGT_0 as Hpi. unfold atan2.
  destruct (Rlt_dec 0 x) as [Hpos | Hnpos].
  - assert (Hq : 0 <= y / x).
    { apply Rmult_le_pos; [exact Hy |].
      left. by apply Rinv_0_lt_compat. }
    pose proof (atan_bound (y / x)) as [_ Hub].
    split; [| lra].
    destruct Hq as [Hq | Hq].
    + pose proof (atan_increasing 0 (y / x) Hq) as Hinc.
      rewrite atan_0 in Hinc. lra.
    + rewrite <- Hq, atan_0. lra.
  - destruct (Rlt_dec x 0); [lra |].
    destruct (Rlt_dec 0 y); [lra |].
    destruct (Rlt_dec y 0); lra.
Qed.

(** X1: a distance is never negative and never more than half the
    circumference of the sphere of radius 6,371,000 m. *)
Theorem haversine_distance_range (lat1 lon1 lat2 lon2 : R) :
  0 <= haversine_distance lat1 lon1 lat2 lon2 <= 6371000 * PI.
Proof.
  unfold haversine_distance. cbv zeta.
  match goal with
  | |- context [atan2 (sqrt ?a) (sqrt ?b)] =>
      pose proof (atan2_quadrant (sqrt a) (sqrt b) (sqrt_pos a) (sqrt_pos b))
        as [Hlo Hhi]
  end.
  split; nra.
Qed.

(** ** The nearest amenity *)

Lemma foldl_py_min_spec (p : Point) (l : list AmenityRecord) (m : R) :
  exists d,
    foldl (fun min_dist amenity =>
             py_min min_dist
               (haversine_distance (pt_y p) (pt_x p)
                  (am_lat amenity) (am_lon amenity)))
          (Fin m) l = Fin d /\
    d <= m /\
    (forall a, a ∈ l ->
       d <= haversine_distance (pt_y p) (pt_x p) (am_lat a) (am_lon a)) /\
    (d = m \/
     exists a, a ∈ l /\
       d = haversine_distance (pt_y p) (pt_x p) (am_lat a) (am_lon a)).
Proof.
  revert m. induction l as [| x l IH]; intros m; cbn [foldl py_min].
  - exists m. split; [reflexivity |]. split; [lra |].
    split; [| by left]. intros a Ha. by apply elem_of_nil in Ha.
  - set (dx := haversine_distance (pt_y p) (pt_x p) (am_lat x) (am_lon x)).
    destruct (IH (Rmin m dx)) as (d & Hd & Hle & Hall & Hex).
    exists d. split; [exact Hd |].
    pose proof (Rmin_l m dx). pose proof (Rmin_r m dx).
    split; [lra |]. split.
    + intros a Ha. apply elem_of_cons in Ha as [-> | Ha].
      * fold dx. lra.
      * by apply Hall.
    + destruct Hex as [Heq | (a & Ha & Heq)].
      * unfold Rmin in Heq. destruct (Rle_dec m dx).
        -- by left.
        -- right. exists x. split; [by left | exact Heq].
      * right. exists a. split; [by right | exact Heq].
Qed.

(** X2: [find_closest] answers [None] exactly on the empty list; on any
    other list it answers a distance that no amenity of the list undercuts
    and that one amenity of the list has. *)
Theorem find_closest_is_minimum (p : Point) (l : list AmenityRecord) :
  match find_closest p l with
  | None => l = []
  | Some d =>
      l <> [] /\
      (forall a, a ∈ l ->
         d <= haversine_distance (pt_y p) (pt_x p) (am_lat a) (am_lon a)) /\
      (exists a, a ∈ l /\
         d = haversine_distance (pt_y p) (pt_x p) (am_lat a) (am_lon a))
  end.
Proof.
  destruct l as [| x l]; [reflexivity |].
  unfold find_closest. cbn [foldl py_min].
  destruct (foldl_py_min_spec p l
              (haversine_distance (pt_y p) (pt_x p) (am_lat x) (am_lon x)))
    as (d & Hd & Hle & Hall & Hex).
  rewrite Hd. split; [discriminate |]. split.
  - intros a Ha. apply elem_of_cons in Ha as [-> | Ha]; [exact Hle |].
    by apply Hall.
  - destruct Hex as [Heq | (a & Ha & Heq)].
    + exists x. split; [by left | exact Heq].
    + exists a. split; [by right | exact Heq].
Qed.

(** ** The ranges the scorers really cover *)

Lemma Rmin_100_id (s : R) : s <= 100 -> Rmin s 100 = s.
Proof. intros Hs. unfold Rmin. destruct (Rle_dec s 100); lra. Qed.

Lemma accessibility_step_upper (c : Point) (amenities : AmenitySet) (s : R)
    (service : string) (max_dist points : R) :
  0 <= points ->
  accessibility_step c amenities s (service, (max_dist, points)) <= s + points.
Proof.
  intros Hp. unfold accessibility_step.
  repeat match goal with
         | |- context [if ?b then _ else _] => destruct b
         end; lra.
Qed.

Lemma accessibility_fold_range (c : Point) (amenities : AmenitySet) :
  30 <= foldl (accessibility_step c amenities) 30 services <= 95.
Proof.
  split.
  - apply accessibility_fold_mono, services_points_nonneg.
  - unfold services. cbn [foldl].
    repeat match goal with
           | |- context [accessibility_step c amenities ?s (?k, (?m, ?pts))] =>
               lazymatch s with
               | context [accessibility_step] => fail
               | _ =>
                   let H := fresh "Hstep" in
                   assert (H : accessibility_step c amenities s (k, (m, pts))
                               <= s + pts)
                     by (apply accessibility_step_upper; lra);
                   generalize dependent
                     (accessibility_step c amenities s (k, (m, pts)));
                   intros
               end
           end.
    lra.
Qed.

Lemma safety_score_range (c : Point) (amenities : AmenitySet) :
  50 <= calculate_safety_score c amenities <= 100.
Proof.
  unfold calculate_safety_score. cbv zeta.
  match goal with
  | |- _ <= Rmin ?s 100 <= _ =>
      assert (Hs : 50 <= s)
        by (repeat match goal with
                   | |- context [if ?b then _ else _] => destruct b
                   end; lra);
      unfold Rmin; destruct (Rle_dec s 100); lra
  end.
Qed.

Lemma efficiency_score_outcome (roads : list RoadRecord) (area_sqm : R)
    (amenities : AmenitySet) :
  match calculate_efficiency_score roads area_sqm amenities with
  | Ok e => area_sqm <> 0 /\ 40 <= e <= 100
  | Raise ex => area_sqm = 0 /\ ex = ZeroDivisionError
  end.
Proof.
  unfold calculate_efficiency_score, py_div.
  destruct (Req_dec_T (area_sqm / 1000000) 0) as [Hz | Hnz]; cbn.
  - split; [lra | reflexivity].
  - split; [intros ->; lra |].
    match goal with
    | |- _ <= Rmin ?s 100 <= _ =>
        assert (Hs : 40 <= s)
          by (repeat match goal with
                     | |- context [if ?b then _ else _] => destruct b
                     end; lra);
        unfold Rmin; destruct (Rle_dec s 100); lra
    end.
Qed.

Lemma accessibility_score_unclamped (c : Point) (amenities : AmenitySet) :
  calculate_accessibility_score c amenities =
  foldl (accessibility_step c amenities) 30 services.
Proof.
  unfold calculate_accessibility_score. cbv zeta.
  pose proof (accessibility_fold_range c amenities) as [Hlo Hhi].
  apply Rmin_100_id. lra.
Qed.

Lemma accessibility_score_range (c : Point) (amenities : AmenitySet) :
  30 <= calculate_accessibility_score c amenities <= 95.
Proof.
  rewrite accessibility_score_unclamped. apply accessibility_fold_range.
Qed.

Lemma environmental_score_values (amenities : AmenitySet) :
  calculate_environmental_score amenities = 50 \/
  calculate_environmental_score amenities = 60 \/
  calculate_environmental_score amenities = 65 \/
  calculate_environmental_score amenities = 75.
Proof.
  unfold calculate_environmental_score. cbv zeta.
  repeat match goal with
         | |- context [if ?b then _ else _] => destruct b
         end; rewrite Rmin_100_id by lra;
    [ right; right; right | right; right; left | right; left | left ]; lra.
Qed.

Lemma efficiency_f64_outcome (roads : list RoadRecord) (area_sqm : float)
    (amenities : AmenitySet) :
  match calculate_efficiency_score_f64 roads area_sqm amenities with
  | Ok e =>
      PrimFloat.leb 40%float e = true /\ PrimFloat.leb e 100%float = true
  | Raise ex =>
      ex = ZeroDivisionError /\
      PrimFloat.eqb (PrimFloat.div area_sqm 1000000%float) 0%float = true
  end.
Proof.
  unfold calculate_efficiency_score_f64, f64_div.
  destruct (PrimFloat.eqb (PrimFloat.div area_sqm 1000000%float) 0%float)
    eqn:Hzero; cbn [mbind result_bind]; [split; reflexivity |].
  cbv zeta.
  repeat match goal with
         | |- context [if ?b then _ else _] =>
             lazymatch b with
             | context [if _ then _ else _] => fail
             | _ => destruct b
             end
         end;
    split; vm_compute; reflexivity.
Qed.

(** X3: every value the safety scorer returns is between 50 and 100 and
    every value the efficiency scorer returns between 40 and 100; in
    binary64 the efficiency scorer raises only [ZeroDivisionError], and
    only when the quotient [area_sqm / 1000000] is zero.  The accessibility
    score never exceeds 95 and the environmental score is one of 50, 60,
    65 and 75, so for these two the final [min(score, 100)] never acts. *)
Theorem scorer_ranges (c : Point) (amenities : AmenitySet)
    (roads : list RoadRecord) (area_sqm : R) (area_f64 : float) :
  50 <= calculate_safety_score c amenities <= 100 /\
  match calculate_efficiency_score roads area_sqm amenities with
  | Ok e => 40 <= e <= 100
  | Raise _ => True
  end /\
  match calculate_efficiency_score_f64 roads area_f64 amenities with
  | Ok e =>
      PrimFloat.leb 40%float e = true /\ PrimFloat.leb e 100%float = true
  | Raise ex =>
      ex = ZeroDivisionError /\
      PrimFloat.eqb (PrimFloat.div area_f64 1000000%float) 0%float = true
  end /\
  30 <= calculate_accessibility_score c amenities <= 95 /\
  calculate_accessibility_score c amenities =
    foldl (accessibility_step c amenities) 30 services /\
  (calculate_environmental_score amenities = 50 \/
   calculate_environmental_score amenities = 60 \/
   calculate_environmental_score amenities = 65 \/
   calculate_environmental_score amenities = 75).
Proof.
  split; [apply safety_score_range |].
  split.
  { pose proof (efficiency_score_outcome roads area_sqm amenities) as H.
    destruct (calculate_efficiency_score roads area_sqm amenities);
      [exact (proj2 H) | exact I]. }
  split; [apply efficiency_f64_outcome |].
  split; [apply accessibility_score_range |].
  split; [apply accessibility_score_unclamped |].
  apply environmental_score_values.
Qed.

(** ** Rounding of the scores *)

Lemma cents_IZR (n : Z) : exists z, IZR n * 100 = IZR z.
Proof. exists (n * 100)%Z. by rewrite mult_IZR. Qed.

Lemma cents_half (n : Z) : exists z, IZR n / 2 * 100 = IZR z.
Proof. exists (n * 50)%Z. rewrite mult_IZR. lra. Qed.

Lemma cents_plus (a b : R) :
  (exists z, a * 100 = IZR z) -> (exists z, b * 100 = IZR z) ->
  exists z, (a + b) * 100 = IZR z.
Proof.
  intros [za Ha] [zb Hb]. exists (za + zb)%Z. rewrite plus_IZR. lra.
Qed.

Lemma cents_Rmin (a : R) :
  (exists z, a * 100 = IZR z) -> exists z, Rmin a 100 * 100 = IZR z.
Proof.
  intros Ha. unfold Rmin. destruct (Rle_dec a 100); [exact Ha |].
  apply cents_IZR.
Qed.

Lemma py_round_cents (x : R) :
  (exists z, x * 100 = IZR z) -> py_round x 2 = x.
Proof.
  intros [z Hz]. apply (py_round_exact x 2 z). simpl. lra.
Qed.

Ltac cents :=
  repeat match goal with
         | |- context [if ?b then _ else _] => destruct b
         end;
  repeat first [ apply cents_IZR | apply cents_half | apply cents_plus ].

Lemma accessibility_step_cents (c : Point) (amenities : AmenitySet) (s : R)
    (service : string) (max_dist : R) (points : Z) :
  (exists z, s * 100 = IZR z) ->
  exists z,
    accessibility_step c amenities s (service, (max_dist, IZR points)) * 100
      = IZR z.
Proof.
  intros Hs. unfold accessibility_step.
  repeat match goal with
         | |- context [if ?b then _ else _] => destruct b
         end;
    first [ exact Hs
          | apply cents_plus;
            [exact Hs | first [apply cents_IZR | apply cents_half]] ].
Qed.

(** X4: every value a scorer returns has at most two decimals, so
    [round(score, 2)] stores the score itself. *)
Theorem sub_scores_unchanged_by_rounding (c : Point) (amenities : AmenitySet)
    (roads : list RoadRecord) (area_sqm : R) :
  py_round (calculate_safety_score c amenities) 2 =
    calculate_safety_score c amenities /\
  match calculate_efficiency_score roads area_sqm amenities with
  | Ok e => py_round e 2 = e
  | Raise _ => area_sqm = 0
  end /\
  py_round (calculate_accessibility_score c amenities) 2 =
    calculate_accessibility_score c amenities /\
  py_round (calculate_environmental_score amenities) 2 =
    calculate_environmental_score amenities.
Proof.
  split; [| split; [| split]].
  - apply py_round_cents. unfold calculate_safety_score. cbv zeta.
    apply cents_Rmin. cents.
  - unfold calculate_efficiency_score, py_div.
    destruct (Req_dec_T (area_sqm / 1000000) 0) as [Hz | Hnz]; cbn; [lra |].
    apply py_round_cents, cents_Rmin. cents.
  - apply py_round_cents. unfold calculate_accessibility_score. cbv zeta.
    apply cents_Rmin. unfold services. cbn [foldl].
    repeat apply accessibility_step_cents. apply cents_IZR.
  - apply py_round_cents. unfold calculate_environmental_score. cbv zeta.
    apply cents_Rmin. cents.
Qed.

Lemma round_half_even_between (x : R) (lo hi : Z) :
  IZR lo <= x <= IZR hi -> (lo <= round_half_even x <= hi)%Z.
Proof.
  intros [Hlo Hhi]. unfold round_half_even.
  destruct (base_Int_part x) as [Hfl Hfu].
  set (n := Int_part x) in *.
  assert (Hn_hi : (n <= hi)%Z) by (apply le_IZR; lra).
  assert (Hlo_n : (lo <= n)%Z).
  { apply Z.lt_succ_r, lt_IZR. rewrite succ_IZR. lra. }
  assert (Hup : 1 / 2 <= x - IZR n -> (n + 1 <= hi)%Z).
  { intros Hf. apply Z.le_succ_l, lt_IZR. lra. }
  destruct (Rlt_dec (x - IZR n) (1 / 2)); [lia |].
  destruct (Rlt_dec (1 / 2) (x - IZR n)).
  - assert (n + 1 <= hi)%Z by (apply Hup; lra). lia.
  - destruct (Z.even n); [lia |].
    assert (n + 1 <= hi)%Z by (apply Hup; lra). lia.
Qed.

Lemma round_half_even_near (x : R) :
  - (1 / 2) <= IZR (round_half_even x) - x <= 1 / 2.
Proof.
  unfold round_half_even.
  destruct (base_Int_part x) as [Hfl Hfu].
  set (n := Int_part x) in *.
  destruct (Rlt_dec (x - IZR n) (1 / 2)); [lra |].
  destruct (Rlt_dec (1 / 2) (x - IZR n)).
  - rewrite plus_IZR. lra.
  - destruct (Z.even n); [lra |]. rewrite plus_IZR. lra.
Qed.

(** Over the reals, when the area is not 0 the [try] block returns an
    assessment, made for the territory it was given, whose overall score
    is the rounded mean of the four scores. *)
Lemma assess_returns (env : Env) (cache : Cache) (tid : string) (c : Point)
    (area_sqm : R) (coords : list (list (list R))) :
  area_sqm <> 0 ->
  exists efficiency a,
    calculate_efficiency_score (get_roads_in_polygon (overpass env) coords)
      area_sqm
      (fst (get_amenities_in_area (overpass env) cache (pt_y c) (pt_x c) 1000))
      = Ok efficiency /\
    fst (assess env cache tid c area_sqm coords) = Ok a /\
    territory_id a = tid /\
    overall_score a =
      py_round
        ((calculate_safety_score c
            (fst (get_amenities_in_area (overpass env) cache
                    (pt_y c) (pt_x c) 1000))
          + efficiency
          + calculate_accessibility_score c
              (fst (get_amenities_in_area (overpass env) cache
                      (pt_y c) (pt_x c) 1000))
          + calculate_environmental_score
              (fst (get_amenities_in_area (overpass env) cache
                      (pt_y c) (pt_x c) 1000))) / 4) 2.
Proof.
  intros Harea. unfold assess.
  destruct (get_amenities_in_area (overpass env) cache (pt_y c) (pt_x c) 1000)
    as [amenities cache0].
  cbn [fst]. cbv zeta.
  pose proof (efficiency_score_outcome
                (get_roads_in_polygon (overpass env) coords) area_sqm
                amenities) as Heff.
  destruct (calculate_efficiency_score
              (get_roads_in_polygon (overpass env) coords) area_sqm amenities)
    as [efficiency | ex]; [| destruct Heff as [Hz _]; contradiction].
  exists efficiency. eexists. split; [reflexivity |].
  split; [reflexivity |]. split; reflexivity.
Qed.

(** The assessment the [try] block returns, when it returns one. *)
Lemma assess_Ok_inv (env : Env) (cache : Cache) (tid : string) (c : Point)
    (area_sqm : R) (coords : list (list (list R))) (a : Assessment) :
  fst (assess env cache tid c area_sqm coords) = Ok a ->
  exists efficiency,
    calculate_efficiency_score (get_roads_in_polygon (overpass env) coords)
      area_sqm
      (fst (get_amenities_in_area (overpass env) cache (pt_y c) (pt_x c) 1000))
      = Ok efficiency /\
    territory_id a = tid /\
    overall_score a =
      py_round
        ((calculate_safety_score c
            (fst (get_amenities_in_area (overpass env) cache
                    (pt_y c) (pt_x c) 1000))
          + efficiency
          + calculate_accessibility_score c
              (fst (get_amenities_in_area (overpass env) cache
                      (pt_y c) (pt_x c) 1000))
          + calculate_environmental_score
              (fst (get_amenities_in_area (overpass env) cache
                      (pt_y c) (pt_x c) 1000))) / 4) 2.
Proof.
  unfold assess.
  destruct (get_amenities_in_area (overpass env) cache (pt_y c) (pt_x c) 1000)
    as [amenities cache0].
  cbn [fst]. cbv zeta.
  destruct (calculate_efficiency_score
              (get_roads_in_polygon (overpass env) coords) area_sqm amenities)
    as [efficiency | ex]; cbn [mbind result_bind mret result_ret];
    [| discriminate].
  intros Ha. exists efficiency. split; [reflexivity |].
  assert (Heq : a = _) by (symmetry; injection Ha as Ha; exact Ha).
  rewrite Heq. split; reflexivity.
Qed.

(** X5: the overall score of an assessment the [try] block returns lies
    between 42.5 and 92.5. *)
Theorem overall_score_range (env : Env) (cache : Cache) (tid : string)
    (c : Point) (area_sqm : R) (coords : list (list (list R)))
    (a : Assessment) :
  fst (assess env cache tid c area_sqm coords) = Ok a ->
  42.5 <= overall_score a <= 92.5.
Proof.
  intros Ha.
  destruct (assess_Ok_inv env cache tid c area_sqm coords a Ha)
    as (efficiency & Heff & _ & Hov).
  rewrite Hov. clear Hov Ha.
  set (amenities :=
         fst (get_amenities_in_area (overpass env) cache
                (pt_y c) (pt_x c) 1000)) in *.
  pose proof (safety_score_range c amenities) as Hs.
  pose proof (efficiency_score_outcome
                (get_roads_in_polygon (overpass env) coords) area_sqm
                amenities) as He.
  pose proof (accessibility_score_range c amenities) as Hacc.
  pose proof (environmental_score_values amenities) as Henv.
  rewrite Heff in He. destruct He as [_ He].
  assert (Henv' : 50 <= calculate_environmental_score amenities <= 75)
    by (destruct Henv as [-> | [-> | [-> | ->]]]; lra).
  set (mean := (calculate_safety_score c amenities + efficiency
                + calculate_accessibility_score c amenities
                + calculate_environmental_score amenities) / 4).
  assert (Hmean : 42.5 <= mean <= 92.5) by (unfold mean; lra).
  unfold py_round.
  replace (10 ^ 2) with 100 by (simpl; lra).
  pose proof (round_half_even_between (mean * 100) 4250 9250) as Hbetween.
  destruct Hbetween as [Hlo Hhi]; [lra |].
  apply IZR_le in Hlo, Hhi.
  lra.
Qed.

(** ** What the recommendation list contains *)

Ltac split_rules :=
  unfold recommendation_list; cbv zeta;
  repeat match goal with
         | |- context [Rlt_dec ?a 60] => destruct (Rlt_dec a 60)
         end;
  repeat match goal with
         | |- context [truthy ?v] => destruct (truthy v)
         end;
  cbn [negb app join].

Ltac settle_membership :=
  cbn [In];
  unfold msg_safety, msg_efficiency, msg_environmental, msg_well_developed,
    msg_add; cbn [String.append];
  split; intros Hgoal;
  first [ lra
        | tauto
        | exfalso;
          repeat match type of Hgoal with
                 | _ \/ _ => destruct Hgoal as [Hgoal | Hgoal]
                 end;
          first [discriminate Hgoal | contradiction] ].

Lemma recommendation_list_length
    (safety efficiency accessibility environmental : R)
    (amenities : AmenitySet) :
  (1 <= length (recommendation_list safety efficiency accessibility
                  environmental amenities) <= 4)%nat.
Proof. split_rules; cbn [length]; lia. Qed.

Lemma safety_message_iff
    (safety efficiency accessibility environmental : R)
    (amenities : AmenitySet) :
  In msg_safety
    (recommendation_list safety efficiency accessibility environmental
       amenities) <-> safety < 60.
Proof. split_rules; settle_membership. Qed.

Lemma efficiency_message_iff
    (safety efficiency accessibility environmental : R)
    (amenities : AmenitySet) :
  In msg_efficiency
    (recommendation_list safety efficiency accessibility environmental
       amenities) <-> efficiency < 60.
Proof. split_rules; settle_membership. Qed.

Lemma environmental_message_iff
    (safety efficiency accessibility environmental : R)
    (amenities : AmenitySet) :
  In msg_environmental
    (recommendation_list safety efficiency accessibility environmental
       amenities) <-> environmental < 60.
Proof. split_rules; settle_membership. Qed.

(** X6: the list holds between one and four messages; the safety, the
    efficiency and the green-space message are in it exactly when the
    respective score is below 60. *)
Theorem recommendation_list_reflects_scores
    (safety efficiency accessibility environmental : R)
    (amenities : AmenitySet) :
  (1 <= length (recommendation_list safety efficiency accessibility
                  environmental amenities) <= 4)%nat /\
  (In msg_safety
     (recommendation_list safety efficiency accessibility environmental
        amenities) <-> safety < 60) /\
  (In msg_efficiency
     (recommendation_list safety efficiency accessibility environmental
        amenities) <-> efficiency < 60) /\
  (In msg_environmental
     (recommendation_list safety efficiency accessibility environmental
        amenities) <-> environmental < 60).
Proof.
  split; [apply recommendation_list_length |].
  split; [apply safety_message_iff |].
  split; [apply efficiency_message_iff |].
  apply environmental_message_iff.
Qed.

(** X7: the output is the single well-developed message exactly when
    safety, efficiency and the environmental score are all at least 60 and
    either accessibility is at least 60 too or schools, hospitals and parks
    are all present. *)
Theorem well_developed_exactly_when_no_rule_adds
    (safety efficiency accessibility environmental : R)
    (amenities : AmenitySet) :
  recommendation_list safety efficiency accessibility environmental amenities
    = [msg_well_developed] <->
  60 <= safety /\ 60 <= efficiency /\ 60 <= environmental /\
  (60 <= accessibility \/
   (truthy (amenities !! "school") = true /\
    truthy (amenities !! "hospital") = true /\
    truthy (amenities !! "park") = true)).
Proof.
  unfold recommendation_list; cbv zeta.
  destruct (Rlt_dec safety 60), (Rlt_dec efficiency 60),
    (Rlt_dec accessibility 60), (Rlt_dec environmental 60),
    (truthy (amenities !! "school")), (truthy (amenities !! "hospital")),
    (truthy (amenities !! "park"));
    cbn [negb app join];
    unfold msg_safety, msg_efficiency, msg_environmental, msg_well_developed,
      msg_add; cbn [String.append];
    (split;
     [ intros Hgoal;
       first [ discriminate Hgoal
             | repeat split; first [lra | by left; lra | by right] ]
     | intros (H1 & H2 & H3 & [H4 | (H5 & H6 & H7)]);
       first [ reflexivity | exfalso; lra | discriminate ] ]).
Qed.

(** ** The amenity cache *)

Lemma cache_set_same (k : CacheKey) (v : AmenitySet) (cache : Cache) :
  cache_set k v cache k = Some v.
Proof.
  unfold cache_set. destruct (CacheKey_eq_dec k k); [reflexivity | done].
Qed.

Lemma cache_set_other (k k' : CacheKey) (v : AmenitySet) (cache : Cache) :
  k <> k' -> cache_set k v cache k' = cache k'.
Proof.
  intros Hne. unfold cache_set.
  destruct (CacheKey_eq_dec k k'); [done | reflexivity].
Qed.

Lemma get_amenities_in_area_hit (o : Overpass) (cache : Cache) (lat lon : R)
    (radius : Z) (cached : AmenitySet) :
  cache (lat, lon, radius) = Some cached ->
  get_amenities_in_area o cache lat lon radius = (cached, cache).
Proof. intros H. unfold get_amenities_in_area. by rewrite H. Qed.

Lemma get_amenities_in_area_miss (o : Overpass) (cache : Cache) (lat lon : R)
    (radius : Z) :
  cache (lat, lon, radius) = None ->
  get_amenities_in_area o cache lat lon radius =
  (foldl (fetch_step o lat lon) ∅ amenity_types,
   cache_set (lat, lon, radius)
     (foldl (fetch_step o lat lon) ∅ amenity_types) cache).
Proof. intros H. unfold get_amenities_in_area. by rewrite H. Qed.

(** X8: after a call the answer is cached under its key: a second call
    with the same latitude, longitude and radius returns the same amenity
    set and leaves the cache as it is, whatever Overpass would answer now;
    and a call never touches the entries of other keys. *)
Theorem get_amenities_in_area_cached (o : Overpass) (cache : Cache)
    (lat lon : R) (radius : Z) :
  let first := get_amenities_in_area o cache lat lon radius in
  (forall o' : Overpass,
     get_amenities_in_area o' (snd first) lat lon radius = first) /\
  (forall k, k <> (lat, lon, radius) -> snd first k = cache k).
Proof.
  cbv zeta.
  destruct (cache (lat, lon, radius)) as [cached |] eqn:Hkey.
  - rewrite (get_amenities_in_area_hit o cache lat lon radius cached Hkey).
    cbn [fst snd]. split; [| reflexivity].
    intros o'. by apply get_amenities_in_area_hit.
  - rewrite (get_amenities_in_area_miss o cache lat lon radius Hkey).
    cbn [fst snd]. split.
    + intros o'. apply get_amenities_in_area_hit, cache_set_same.
    + intros k Hk. by apply cache_set_other.
Qed.

Lemma fetch_fold_dom (o : Overpass) (lat lon : R) (types : list string)
    (results : AmenitySet) :
  dom (foldl (fetch_step o lat lon) results types) =
  list_to_set types ∪ dom results.
Proof.
  revert results. induction types as [| t types IH]; intros results;
    cbn [foldl list_to_set].
  - set_solver.
  - rewrite IH, fetch_step_insert, dom_insert_L. set_solver.
Qed.

(** X9: when the key is not cached, the amenity set returned has the 14
    amenity types as its keys and no other key, and it does not depend on
    the radius: the bounding box is the same for every radius. *)
Theorem get_amenities_in_area_miss_keys_and_radius (o : Overpass)
    (cache : Cache) (lat lon : R) (radius radius' : Z) :
  cache (lat, lon, radius) = None ->
  cache (lat, lon, radius') = None ->
  dom (fst (get_amenities_in_area o cache lat lon radius)) =
    list_to_set amenity_types /\
  fst (get_amenities_in_area o cache lat lon radius) =
    fst (get_amenities_in_area o cache lat lon radius').
Proof.
  intros H H'.
  rewrite !get_amenities_in_area_miss by assumption. cbn [fst]. split.
  - rewrite fetch_fold_dom, dom_empty_L. set_solver.
  - reflexivity.
Qed.

(** ** The road query *)

Lemma index_Some {A} (l : list A) (i : nat) (a : A) :
  l !! i = Some a -> index l i = Ok a.
Proof. intros H. unfold index. by rewrite H. Qed.

Lemma index_None {A} (l : list A) (i : nat) :
  l !! i = None -> index l i = Raise IndexError.
Proof. intros H. unfold index. by rewrite H. Qed.

Lemma mapM_result_cons {A B} (f : A -> result B) (x : A) (l : list A) :
  mapM f (x :: l) =
  match f x with
  | Ok y => match mapM f l with
            | Ok k => Ok (y :: k)
            | Raise e => Raise e
            end
  | Raise e => Raise e
  end.
Proof. reflexivity. Qed.

Lemma mapM_index_ok (ring : list (list R)) (i : nat) :
  (forall coord, coord ∈ ring -> (i < length coord)%nat) ->
  mapM (fun coord => index coord i) ring =
  Ok (map (fun coord => nth i coord 0) ring).
Proof.
  induction ring as [| coord ring IH]; intros Hall; [reflexivity |].
  rewrite mapM_result_cons. cbn [map]. unfold index at 1.
  destruct (coord !! i) as [v |] eqn:Hv.
  - rewrite IH by (intros c Hc; apply Hall; by right).
    f_equal. f_equal. symmetry. by apply nth_lookup_Some with (d := 0).
  - apply lookup_ge_None in Hv.
    assert (i < length coord)%nat by (apply Hall; by left). lia.
Qed.

Lemma mapM_index_raise (ring : list (list R)) (i : nat) :
  (exists coord, coord ∈ ring /\ (length coord <= i)%nat) ->
  mapM (fun coord => index coord i) ring = Raise IndexError.
Proof.
  intros (bad & Hin & Hlen).
  induction ring as [| coord ring IH]; [by apply elem_of_nil in Hin |].
  rewrite mapM_result_cons. unfold index at 1.
  destruct (coord !! i) as [v |] eqn:Hv; [| reflexivity].
  apply elem_of_cons in Hin as [-> | Hin].
  - apply lookup_lt_Some in Hv. lia.
  - by rewrite (IH Hin).
Qed.

Lemma foldl_Rmin_init (l : list R) (a : R) : foldl Rmin a l <= a.
Proof.
  revert a. induction l as [| b l IH]; intros a; cbn [foldl]; [lra |].
  pose proof (IH (Rmin a b)). pose proof (Rmin_l a b). lra.
Qed.

Lemma foldl_Rmax_init (l : list R) (a : R) : a <= foldl Rmax a l.
Proof.
  revert a. induction l as [| b l IH]; intros a; cbn [foldl]; [lra |].
  pose proof (IH (Rmax a b)). pose proof (Rmax_l a b). lra.
Qed.

Lemma foldl_Rmin_le (l : list R) (a x : R) :
  x ∈ a :: l -> foldl Rmin a l <= x.
Proof.
  revert a. induction l as [| b l IH]; intros a Hx.
  - apply list_elem_of_singleton in Hx as ->. cbn. lra.
  - cbn [foldl]. pose proof (foldl_Rmin_init l (Rmin a b)).
    pose proof (Rmin_l a b). pose proof (Rmin_r a b).
    apply elem_of_cons in Hx as [-> | Hx]; [lra |].
    apply elem_of_cons in Hx as [-> | Hx]; [lra |].
    apply IH. by right.
Qed.

Lemma foldl_Rmax_ge (l : list R) (a x : R) :
  x ∈ a :: l -> x <= foldl Rmax a l.
Proof.
  revert a. induction l as [| b l IH]; intros a Hx.
  - apply list_elem_of_singleton in Hx as ->. cbn. lra.
  - cbn [foldl]. pose proof (foldl_Rmax_init l (Rmax a b)).
    pose proof (Rmax_l a b). pose proof (Rmax_r a b).
    apply elem_of_cons in Hx as [-> | Hx]; [lra |].
    apply elem_of_cons in Hx as [-> | Hx]; [lra |].
    apply IH. by right.
Qed.

(** X10: [get_roads_in_polygon] answers the empty list when there is no
    ring, when the ring is empty, and when some position of the ring has
    fewer than two numbers. *)
Theorem get_roads_in_polygon_malformed (o : Overpass)
    (coordinates : list (list (list R))) :
  coordinates !! 0%nat = None \/
  coordinates !! 0%nat = Some [] \/
  (exists ring coord, coordinates !! 0%nat = Some ring /\ coord ∈ ring /\
     (length coord < 2)%nat) ->
  get_roads_in_polygon o coordinates = [].
Proof.
  unfold get_roads_in_polygon, roads_query.
  intros [Hnone | [Hempty | (ring & coord & Hring & Hin & Hlen)]].
  - by rewrite (index_None _ _ Hnone).
  - by rewrite (index_Some _ _ _ Hempty).
  - rewrite (index_Some _ _ _ Hring). cbn [mbind result_bind].
    rewrite (mapM_index_raise ring 1); [reflexivity |].
    exists coord. split; [exact Hin | lia].
Qed.

(** X11: for a ring that is not empty and whose positions all have two
    numbers, [get_roads_in_polygon] sends one way query, over a box that
    encloses every position of the ring, read as longitude then latitude;
    it answers the ways found, or the empty list if the query raises. *)
Theorem get_roads_in_polygon_bounding_box (o : Overpass)
    (coordinates : list (list (list R))) (ring : list (list R)) :
  coordinates !! 0%nat = Some ring ->
  ring <> [] ->
  (forall coord, coord ∈ ring -> (2 <= length coord)%nat) ->
  exists min_lat min_lon max_lat max_lon,
    get_roads_in_polygon o coordinates =
      match query_ways o [min_lat; min_lon; max_lat; max_lon] with
      | Ok roads => roads
      | Raise _ => []
      end /\
    forall lon lat rest, (lon :: lat :: rest) ∈ ring ->
      min_lat <= lat <= max_lat /\ min_lon <= lon <= max_lon.
Proof.
  intros Hring Hne Hall.
  unfold get_roads_in_polygon, roads_query.
  rewrite (index_Some _ _ _ Hring). cbn [mbind result_bind].
  rewrite (mapM_index_ok ring 1) by (intros c Hc; specialize (Hall c Hc); lia).
  rewrite (mapM_index_ok ring 0) by (intros c Hc; specialize (Hall c Hc); lia).
  destruct ring as [| c0 ring']; [done |]. cbn [map min_list max_list].
  set (lats := map (fun coord => nth 1 coord 0) ring').
  set (lons := map (fun coord => nth 0 coord 0) ring').
  exists (foldl Rmin (nth 1 c0 0) lats), (foldl Rmin (nth 0 c0 0) lons),
    (foldl Rmax (nth 1 c0 0) lats), (foldl Rmax (nth 0 c0 0) lons).
  split; [reflexivity |].
  intros lon lat rest Hin.
  assert (Hlat : lat ∈ nth 1 c0 0 :: lats).
  { change lat with (nth 1 (lon :: lat :: rest) 0).
    change (nth 1 c0 0 :: lats)
      with (map (fun coord => nth 1 coord 0) (c0 :: ring')).
    apply list_elem_of_fmap. eauto. }
  assert (Hlon : lon ∈ nth 0 c0 0 :: lons).
  { change lon with (nth 0 (lon :: lat :: rest) 0).
    change (nth 0 c0 0 :: lons)
      with (map (fun coord => nth 0 coord 0) (c0 :: ring')).
    apply list_elem_of_fmap. eauto. }
  pose proof (foldl_Rmin_le _ _ _ Hlat). pose proof (foldl_Rmax_ge _ _ _ Hlat).
  pose proof (foldl_Rmin_le _ _ _ Hlon). pose proof (foldl_Rmax_ge _ _ _ Hlon).
  lra.
Qed.

(** ** The project handlers *)

Lemma delete_territory_step_delete (territories : gmap string Territory)
    (assessments : gmap string Assessment) (t_id : string) :
  delete_territory_step (territories, assessments) t_id =
  (delete t_id territories, delete t_id assessments).
Proof.
  unfold delete_territory_step.
  destruct (decide (t_id ∈ dom assessments)) as [Hin | Hnin]; [reflexivity |].
  apply not_elem_of_dom in Hnin. by rewrite (delete_id _ _ Hnin).
Qed.

Lemma delete_loop_lookup (keys : list string)
    (territories : gmap string Territory)
    (assessments : gmap string Assessment) (k : string) :
  fst (foldl delete_territory_step (territories, assessments) keys) !! k =
    (if decide (k ∈ keys) then None else territories !! k) /\
  snd (foldl delete_territory_step (territories, assessments) keys) !! k =
    (if decide (k ∈ keys) then None else assessments !! k).
Proof.
  revert territories assessments.
  induction keys as [| t_id keys IH]; intros territories assessments;
    cbn [foldl].
  - destruct (decide (k ∈ [])) as [Hin | _]; [| split; reflexivity].
    by apply elem_of_nil in Hin.
  - rewrite delete_territory_step_delete.
    destruct (IH (delete t_id territories) (delete t_id assessments))
      as [IHt IHa].
    rewrite IHt, IHa. clear IHt IHa IH.
    destruct (decide (k ∈ keys)) as [Hin | Hnin];
      destruct (decide (k ∈ t_id :: keys)) as [Hin' | Hnin'].
    + split; reflexivity.
    + exfalso. apply Hnin'. by right.
    + apply elem_of_cons in Hin' as [-> | ?]; [| contradiction].
      by rewrite !lookup_delete_eq.
    + assert (t_id <> k) by (intros ->; apply Hnin'; by left).
      by rewrite !lookup_delete_ne.
Qed.

Lemma territories_to_delete_elem (territories : gmap string Territory)
    (project_id k : string) :
  k ∈ (map_to_list
         (filter (fun kt => territory_project_id (snd kt) = project_id)
            territories)).*1 <->
  exists t, territories !! k = Some t /\ territory_project_id t = project_id.
Proof.
  rewrite list_elem_of_fmap. split.
  - intros ([k' t] & -> & Hin). apply elem_of_map_to_list in Hin.
    apply map_lookup_filter_Some in Hin as [Hl Hp]. eauto.
  - intros (t & Hl & Hp). exists (k, t). split; [reflexivity |].
    apply elem_of_map_to_list, map_lookup_filter_Some. done.
Qed.

(** What [delete_project] leaves of the stores of a known project. *)
Lemma delete_project_outcome (st : Store) (project_id : string) :
  project_id ∈ dom (PROJECTS st) ->
  exists st',
    delete_project st project_id = (Ok "Project deleted", st') /\
    PROJECTS st' = delete project_id (PROJECTS st) /\
    osm_cache st' = osm_cache st /\
    forall k,
      match TERRITORIES st !! k with
      | Some t =>
          if decide (territory_project_id t = project_id)
          then TERRITORIES st' !! k = None /\ ASSESSMENTS st' !! k = None
          else TERRITORIES st' !! k = Some t /\
               ASSESSMENTS st' !! k = ASSESSMENTS st !! k
      | None =>
          TERRITORIES st' !! k = None /\
          ASSESSMENTS st' !! k = ASSESSMENTS st !! k
      end.
Proof.
  intros Hproj. unfold delete_project. rewrite decide_True by exact Hproj.
  cbv zeta.
  set (keys := (map_to_list
                  (filter (fun kt => territory_project_id (snd kt) = project_id)
                     (TERRITORIES st))).*1).
  pose proof (delete_loop_lookup keys (TERRITORIES st) (ASSESSMENTS st))
    as Hloop.
  destruct (foldl delete_territory_step (TERRITORIES st, ASSESSMENTS st) keys)
    as [territories assessments].
  eexists. split; [reflexivity |]. cbn.
  split; [reflexivity |]. split; [reflexivity |].
  intros k. destruct (Hloop k) as [Ht Ha]. cbn in Ht, Ha.
  rewrite Ht, Ha.
  pose proof (territories_to_delete_elem (TERRITORIES st) project_id k)
    as Hkeys. fold keys in Hkeys.
  destruct (TERRITORIES st !! k) as [t |] eqn:Hk.
  - destruct (decide (territory_project_id t = project_id)) as [Hp | Hnp];
      destruct (decide (k ∈ keys)) as [Hin | Hnin].
    + split; reflexivity.
    + exfalso. apply Hnin, Hkeys. eauto.
    + apply Hkeys in Hin as (t' & Heq & Hp). congruence.
    + split; reflexivity.
  - destruct (decide (k ∈ keys)) as [Hin | Hnin]; [| split; reflexivity].
    apply Hkeys in Hin as (t' & Heq & _). discriminate.
Qed.

(** X12: deleting a known project answers "Project deleted"; afterwards
    the project, each of its territories and each of their assessments are
    looked up in vain, while every other project and every territory of
    another project, with its assessment, is found as before. *)
Theorem delete_project_cascades (st : Store) (project_id : string) :
  project_id ∈ dom (PROJECTS st) ->
  exists st',
    delete_project st project_id = (Ok "Project deleted", st') /\
    get_project st' project_id =
      Raise (HTTPException 404 "Project not found") /\
    (forall q, q <> project_id -> get_project st' q = get_project st q) /\
    (forall k t, TERRITORIES st !! k = Some t ->
       territory_project_id t = project_id ->
       get_territory st' k =
         Raise (HTTPException 404 "Territory not found") /\
       get_assessment st' k =
         Raise (HTTPException 404 "Assessment not found")) /\
    (forall k t, TERRITORIES st !! k = Some t ->
       territory_project_id t <> project_id ->
       get_territory st' k = get_territory st k /\
       get_assessment st' k = get_assessment st k).
Proof.
  intros Hproj.
  destruct (delete_project_outcome st project_id Hproj)
    as (st' & Hrun & Hprojects & _ & Hstores).
  exists st'. split; [exact Hrun |].
  unfold get_project, get_territory, get_assessment. rewrite Hprojects.
  split; [by rewrite lookup_delete_eq |].
  split; [intros q Hq; by rewrite lookup_delete_ne |].
  split.
  - intros k t Hk Hp. specialize (Hstores k). rewrite Hk in Hstores.
    rewrite decide_True in Hstores by exact Hp.
    destruct Hstores as [-> ->]. split; reflexivity.
  - intros k t Hk Hp. specialize (Hstores k). rewrite Hk in Hstores.
    rewrite decide_False in Hstores by exact Hp.
    destruct Hstores as [-> ->]. rewrite Hk. split; reflexivity.
Qed.

(** The three ways [create_territory] can end. *)
Lemma create_territory_cases (env : Env) (st : Store) (data : TerritoryCreate) :
  ((tc_project_id data ∉ dom (PROJECTS st)) /\
   create_territory env st data =
     (Raise (HTTPException 404 "Project not found"), st)) \/
  (tc_project_id data ∈ dom (PROJECTS st) /\
   exists e,
     (ring ← index (tc_coordinates data) 0; shapely_Polygon env ring)
       = Raise e /\
     create_territory env st data = (Raise e, st)) \/
  (tc_project_id data ∈ dom (PROJECTS st) /\
   exists polygon,
     (ring ← index (tc_coordinates data) 0; shapely_Polygon env ring)
       = Ok polygon).
Proof.
  destruct (decide (tc_project_id data ∈ dom (PROJECTS st))) as [Hin | Hnin].
  - right.
    destruct (ring ← index (tc_coordinates data) 0; shapely_Polygon env ring)
      as [polygon | e] eqn:Hpoly.
    + right. eauto.
    + left. split; [exact Hin |]. exists e. split; [reflexivity |].
      unfold create_territory. rewrite decide_True by exact Hin.
      by rewrite Hpoly.
  - left. split; [exact Hnin |]. unfold create_territory.
    by rewrite decide_False.
Qed.

(** X13: a request that [create_territory] answers with an exception
    leaves all the stores as they were, and the exception is either the 404
    of an unknown project or the one the polygon construction raised; a
    request it answers with a territory has stored that territory under
    the new identifier. *)
Theorem create_territory_all_or_nothing (env : Env) (st : Store)
    (data : TerritoryCreate) :
  match fst (create_territory env st data) with
  | Raise e =>
      snd (create_territory env st data) = st /\
      (e = HTTPException 404 "Project not found" /\
       (tc_project_id data ∉ dom (PROJECTS st)) \/
       (ring ← index (tc_coordinates data) 0; shapely_Polygon env ring)
         = Raise e)
  | Ok territory =>
      tc_project_id data ∈ dom (PROJECTS st) /\
      territory_ident territory = uuid_territory env /\
      territory_project_id territory = tc_project_id data /\
      get_territory (snd (create_territory env st data)) (uuid_territory env)
        = Ok territory
  end.
Proof.
  destruct (create_territory_cases env st data)
    as [[Hnin Hrun] | [(Hin & e & Hpoly & Hrun) | (Hin & polygon & Hpoly)]].
  - rewrite Hrun. cbn. split; [reflexivity |]. by left.
  - rewrite Hrun. cbn. split; [reflexivity |]. by right.
  - rewrite (create_territory_outcome env st data polygon Hin Hpoly).
    cbn. split; [exact Hin |]. split; [reflexivity |].
    split; [reflexivity |].
    unfold get_territory. cbn. by rewrite lookup_insert_eq.
Qed.

(** X14: when the project exists, the polygon stage succeeds and the [try]
    block returns an assessment, the handler stores that assessment under
    the territory's identifier, which a lookup returns, and raises the
    project's counter by one; it touches no other territory, assessment or
    project. *)
Theorem create_territory_stores_assessment (env : Env) (st : Store)
    (data : TerritoryCreate) (polygon : Polygon) (p : Project)
    (a : Assessment) :
  PROJECTS st !! tc_project_id data = Some p ->
  (ring ← index (tc_coordinates data) 0; shapely_Polygon env ring)
    = Ok polygon ->
  fst (assess env (osm_cache st) (uuid_territory env) (centroid polygon)
         (area polygon * 111320 * 111320) (tc_coordinates data)) = Ok a ->
  exists territory st',
    create_territory env st data = (Ok territory, st') /\
    get_territory st' (uuid_territory env) = Ok territory /\
    get_assessment st' (uuid_territory env) = Ok a /\
    territory_id a = uuid_territory env /\
    get_project st' (tc_project_id data) = Ok (bump_territories_count p) /\
    (forall k, k <> uuid_territory env ->
       TERRITORIES st' !! k = TERRITORIES st !! k /\
       ASSESSMENTS st' !! k = ASSESSMENTS st !! k) /\
    (forall q, q <> tc_project_id data ->
       PROJECTS st' !! q = PROJECTS st !! q).
Proof.
  intros Hp Hpoly Ha.
  assert (Hin : tc_project_id data ∈ dom (PROJECTS st))
    by (apply elem_of_dom; eauto).
  pose proof (create_territory_outcome env st data polygon Hin Hpoly) as Hrun.
  cbv zeta in Hrun.
  destruct (assess_Ok_inv _ _ _ _ _ _ _ Ha) as (_ & _ & Htid & _).
  rewrite Ha in Hrun.
  eexists _, _. split; [exact Hrun |].
  unfold get_territory, get_assessment, get_project.
  cbn [TERRITORIES ASSESSMENTS PROJECTS].
  rewrite !lookup_insert_eq, lookup_alter_eq, Hp.
  cbn [fmap option_fmap option_map].
  split; [reflexivity |]. split; [reflexivity |]. split; [exact Htid |].
  split; [reflexivity |]. split.
  - intros k Hk. by rewrite !lookup_insert_ne.
  - intros q Hq. by rewrite lookup_alter_ne.
Qed.

(** ** Invariants of the stores *)

Lemma create_territory_store (env : Env) (st : Store) (data : TerritoryCreate) :
  snd (create_territory env st data) = st \/
  (tc_project_id data ∈ dom (PROJECTS st) /\
   exists territory assessments cache,
     territory_project_id territory = tc_project_id data /\
     (assessments = ASSESSMENTS st \/
      exists a, assessments = <[uuid_territory env := a]> (ASSESSMENTS st)) /\
     snd (create_territory env st data) =
       mkStore
         (alter bump_territories_count (tc_project_id data) (PROJECTS st))
         (<[uuid_territory env := territory]> (TERRITORIES st))
         assessments cache).
Proof.
  destruct (create_territory_cases env st data)
    as [[Hnin Hrun] | [(Hin & e & Hpoly & Hrun) | (Hin & polygon & Hpoly)]].
  - left. by rewrite Hrun.
  - left. by rewrite Hrun.
  - right. split; [exact Hin |].
    rewrite (create_territory_outcome env st data polygon Hin Hpoly).
    cbn [snd]. eexists _, _, _. split; [| split; [| reflexivity]].
    + reflexivity.
    + destruct (fst (assess _ _ _ _ _ _)) as [a | e]; eauto.
Qed.

(** X15: if every territory belongs to a stored project and every
    assessment to a stored territory, this is still so after any of
    [create_project], [create_territory] and [delete_project], whatever
    their arguments. *)
Theorem store_consistent_preserved (st : Store) :
  store_consistent st ->
  (forall project_id now project_data,
     store_consistent (snd (create_project project_id now st project_data))) /\
  (forall env data, store_consistent (snd (create_territory env st data))) /\
  (forall project_id, store_consistent (snd (delete_project st project_id))).
Proof.
  intros [Hterr Hass]. split; [| split].
  - intros pid now pdata. split; cbn.
    + intros k t Hk. rewrite dom_insert_L.
      apply elem_of_union_r. by eapply Hterr.
    + exact Hass.
  - intros env data.
    destruct (create_territory_store env st data)
      as [-> | (Hin & t & assessments & cache & Hp & Hassess & ->)];
      [by split |].
    split; cbn.
    + intros k t' Hk. rewrite dom_alter_L.
      destruct (decide (k = uuid_territory env)) as [-> | Hne].
      * rewrite lookup_insert_eq in Hk. injection Hk as <-. by rewrite Hp.
      * rewrite lookup_insert_ne in Hk by done. by eapply Hterr.
    + intros k Hk. rewrite dom_insert_L.
      destruct Hassess as [-> | [a ->]].
      * apply elem_of_union_r. by apply Hass.
      * rewrite dom_insert_L in Hk.
        apply elem_of_union in Hk as [Hk | Hk].
        -- by apply elem_of_union_l.
        -- apply elem_of_union_r. by apply Hass.
  - intros pid.
    destruct (decide (pid ∈ dom (PROJECTS st))) as [Hin | Hnin].
    + destruct (delete_project_outcome st pid Hin)
        as (st' & -> & Hprojects & _ & Hstores).
      cbn [snd]. split.
      * intros k t Hk. specialize (Hstores k).
        destruct (TERRITORIES st !! k) as [t0 |] eqn:Hk0.
        -- destruct (decide (territory_project_id t0 = pid)) as [Hp | Hnp].
           ++ destruct Hstores as [Hnone _]. congruence.
           ++ destruct Hstores as [Hsome _].
              assert (t = t0) as -> by congruence.
              rewrite Hprojects, dom_delete_L.
              apply elem_of_difference. split; [by eapply Hterr |].
              intros Heq%elem_of_singleton. contradiction.
        -- destruct Hstores as [Hnone _]. congruence.
      * intros k Hk. apply elem_of_dom in Hk as [a Ha].
        specialize (Hstores k).
        destruct (TERRITORIES st !! k) as [t0 |] eqn:Hk0.
        -- destruct (decide (territory_project_id t0 = pid)) as [Hp | Hnp].
           ++ destruct Hstores as [_ Hnone]. congruence.
           ++ destruct Hstores as [Hsome _]. apply elem_of_dom. eauto.
        -- destruct Hstores as [_ Hsame].
           assert (Hd : k ∈ dom (TERRITORIES st)).
           { apply Hass, elem_of_dom. exists a. congruence. }
           apply elem_of_dom in Hd as [t0 Ht0]. congruence.
    + unfold delete_project. rewrite decide_False by exact Hnin. by split.
Qed.

Lemma territories_of_fresh_project (st : Store) (project_id : string) :
  store_consistent st ->
  project_id ∉ dom (PROJECTS st) ->
  territories_of st project_id = ∅.
Proof.
  intros [Hterr _] Hfresh. apply map_empty. intros k.
  apply eq_None_not_Some. intros [t Ht].
  apply map_lookup_filter_Some in Ht as [Hk Hp]. cbn in Hp.
  apply Hfresh. rewrite <- Hp. by eapply Hterr.
Qed.

(** X16: if the stores are consistent and every project's
    [territories_count] is the number of territories stored for it, this is
    still so after [create_project] with a new project identifier, after
    [create_territory] with a new territory identifier, and after
    [delete_project]. *)
Theorem counts_accurate_preserved (st : Store) :
  store_consistent st ->
  counts_accurate st ->
  (forall project_id now project_data,
     project_id ∉ dom (PROJECTS st) ->
     counts_accurate (snd (create_project project_id now st project_data))) /\
  (forall env data,
     uuid_territory env ∉ dom (TERRITORIES st) ->
     counts_accurate (snd (create_territory env st data))) /\
  (forall project_id, counts_accurate (snd (delete_project st project_id))).
Proof.
  intros Hcons Hcount. split; [| split].
  - intros pid now pdata Hfresh q p. cbn [snd create_project PROJECTS].
    unfold territories_of. cbn [TERRITORIES].
    destruct (decide (q = pid)) as [-> | Hne].
    + rewrite lookup_insert_eq. intros Heq.
      assert (territories_count p = 0%Z) as -> by (by injection Heq as <-).
      fold (territories_of st pid).
      by rewrite (territories_of_fresh_project st pid Hcons Hfresh),
        map_size_empty.
    + rewrite lookup_insert_ne by done. apply Hcount.
  - intros env data Hfresh.
    apply not_elem_of_dom in Hfresh.
    destruct (create_territory_store env st data)
      as [-> | (Hin & t & assessments & cache & Hp & _ & ->)];
      [exact Hcount |].
    intros q p. unfold territories_of. cbn [PROJECTS TERRITORIES].
    destruct (decide (q = tc_project_id data)) as [-> | Hne].
    + rewrite lookup_alter_eq.
      destruct (PROJECTS st !! tc_project_id data) as [p0 |] eqn:Hp0;
        [| discriminate].
      cbn [fmap option_fmap option_map]. intros Heq.
      assert (p = bump_territories_count p0) as -> by congruence.
      cbn [bump_territories_count territories_count].
      rewrite (Hcount _ _ Hp0). unfold territories_of.
      rewrite map_filter_insert_True by exact Hp.
      rewrite map_size_insert_None; [lia |].
      apply eq_None_not_Some. intros [t' Ht'].
      apply map_lookup_filter_Some in Ht' as [Hk _]. congruence.
    + rewrite lookup_alter_ne by done. intros Hq.
      rewrite map_filter_insert_False by (cbn; congruence).
      rewrite (delete_id _ _ Hfresh). by apply Hcount.
  - intros pid.
    destruct (decide (pid ∈ dom (PROJECTS st))) as [Hin | Hnin].
    + destruct (delete_project_outcome st pid Hin)
        as (st' & -> & Hprojects & _ & Hstores).
      cbn [snd]. intros q p. rewrite Hprojects. intros Hq.
      apply lookup_delete_Some in Hq as [Hne Hq].
      rewrite (Hcount _ _ Hq). f_equal. f_equal.
      unfold territories_of. apply map_eq. intros k. apply option_eq. intros t.
      rewrite !map_lookup_filter_Some. cbn [snd].
      specialize (Hstores k).
      destruct (TERRITORIES st !! k) as [t0 |] eqn:Hk0.
      * destruct (decide (territory_project_id t0 = pid)) as [Hp0 | Hnp0].
        -- destruct Hstores as [-> _].
           split; [| intros [? _]; discriminate].
           intros [Heq Hp]. exfalso. apply Hne. congruence.
        -- destruct Hstores as [-> _]. reflexivity.
      * destruct Hstores as [-> _]. reflexivity.
    + unfold delete_project. rewrite decide_False by exact Hnin. exact Hcount.
Qed.

(** ** Handlers one after the other *)

(** X17: a territory created in a project and the assessment made for it
    are both gone, with the project, once the project is deleted. *)
Theorem create_territory_then_delete_project (env : Env) (st : Store)
    (data : TerritoryCreate) (polygon : Polygon) :
  tc_project_id data ∈ dom (PROJECTS st) ->
  (ring ← index (tc_coordinates data) 0; shapely_Polygon env ring)
    = Ok polygon ->
  exists territory st1 st2,
    create_territory env st data = (Ok territory, st1) /\
    get_territory st1 (uuid_territory env) = Ok territory /\
    delete_project st1 (tc_project_id data) = (Ok "Project deleted", st2) /\
    get_project st2 (tc_project_id data) =
      Raise (HTTPException 404 "Project not found") /\
    get_territory st2 (uuid_territory env) =
      Raise (HTTPException 404 "Territory not found") /\
    get_assessment st2 (uuid_territory env) =
      Raise (HTTPException 404 "Assessment not found").
Proof.
  intros Hin Hpoly.
  pose proof (create_territory_outcome env st data polygon Hin Hpoly) as Hrun.
  cbv zeta in Hrun.
  match type of Hrun with
  | _ = (Ok ?t, ?s) => set (territory := t) in *; set (st1 := s) in *
  end.
  assert (Hin1 : tc_project_id data ∈ dom (PROJECTS st1))
    by (unfold st1; cbn [PROJECTS]; by rewrite dom_alter_L).
  assert (Hk : TERRITORIES st1 !! uuid_territory env = Some territory)
    by (unfold st1; cbn [TERRITORIES]; by rewrite lookup_insert_eq).
  destruct (delete_project_outcome st1 (tc_project_id data) Hin1)
    as (st2 & Hdel & Hprojects & _ & Hstores).
  specialize (Hstores (uuid_territory env)). rewrite Hk in Hstores.
  rewrite decide_True in Hstores by reflexivity.
  destruct Hstores as [Ht Ha].
  exists territory, st1, st2. split; [exact Hrun |].
  unfold get_territory, get_assessment, get_project.
  rewrite Hk, Ht, Ha, Hprojects, lookup_delete_eq.
  split; [reflexivity |]. split; [exact Hdel |].
  split; [reflexivity |]. split; reflexivity.
Qed.

(** X18: a project just created is found by [get_project] with a counter
    of 0, and it accepts a territory: [create_territory] for its
    identifier does not answer 404, and afterwards the project's counter
    is 1. *)
Theorem created_project_accepts_territory (project_id now : string)
    (st : Store) (project_data : ProjectCreate) (env : Env)
    (data : TerritoryCreate) (polygon : Polygon) :
  tc_project_id data = project_id ->
  (ring ← index (tc_coordinates data) 0; shapely_Polygon env ring)
    = Ok polygon ->
  let created := create_project project_id now st project_data in
  get_project (snd created) project_id = Ok (fst created) /\
  territories_count (fst created) = 0%Z /\
  exists territory st' p,
    create_territory env (snd created) data = (Ok territory, st') /\
    get_project st' project_id = Ok p /\
    project_name p = pc_name project_data /\
    territories_count p = 1%Z.
Proof.
  intros Hid Hpoly. cbv zeta. unfold create_project. cbn [fst snd].
  set (project := mkProject project_id (pc_name project_data)
                    (pc_description project_data) (pc_location project_data)
                    now 0).
  set (st0 := mkStore (<[project_id := project]> (PROJECTS st))
                (TERRITORIES st) (ASSESSMENTS st) (osm_cache st)).
  assert (Hget : PROJECTS st0 !! project_id = Some project)
    by (unfold st0; cbn [PROJECTS]; by rewrite lookup_insert_eq).
  split; [unfold get_project; by rewrite Hget |].
  split; [reflexivity |].
  assert (Hin : tc_project_id data ∈ dom (PROJECTS st0))
    by (rewrite Hid; apply elem_of_dom; eauto).
  pose proof (create_territory_outcome env st0 data polygon Hin Hpoly) as Hrun.
  cbv zeta in Hrun.
  eexists _, _, (bump_territories_count project).
  split; [exact Hrun |].
  unfold get_project. cbn [PROJECTS].
  rewrite Hid, lookup_alter_eq, Hget.
  repeat split.
Qed.

(** ** The cache after a territory is created *)

Lemma assess_cache (env : Env) (cache : Cache) (tid : string) (c : Point)
    (area_sqm : R) (coords : list (list (list R))) :
  snd (assess env cache tid c area_sqm coords) =
  snd (get_amenities_in_area (overpass env) cache (pt_y c) (pt_x c) 1000).
Proof.
  unfold assess.
  by destruct (get_amenities_in_area (overpass env) cache (pt_y c) (pt_x c)
                 1000).
Qed.

Lemma get_amenities_in_area_stored (o : Overpass) (cache : Cache)
    (lat lon : R) (radius : Z) :
  snd (get_amenities_in_area o cache lat lon radius) (lat, lon, radius) =
  Some (fst (get_amenities_in_area o cache lat lon radius)).
Proof.
  destruct (cache (lat, lon, radius)) as [cached |] eqn:Hkey.
  - by rewrite (get_amenities_in_area_hit o cache lat lon radius cached Hkey).
  - rewrite (get_amenities_in_area_miss o cache lat lon radius Hkey).
    apply cache_set_same.
Qed.

(** X19: once [create_territory] has stored the territory, the cache holds
    the amenity set fetched for its centroid under the key of that centroid
    and radius 1000, also when the scoring then raised and no assessment
    was stored. *)
Theorem create_territory_fills_cache (env : Env) (st : Store)
    (data : TerritoryCreate) (polygon : Polygon) :
  tc_project_id data ∈ dom (PROJECTS st) ->
  (ring ← index (tc_coordinates data) 0; shapely_Polygon env ring)
    = Ok polygon ->
  osm_cache (snd (create_territory env st data))
    (pt_y (centroid polygon), pt_x (centroid polygon), 1000%Z) =
  Some (fst (get_amenities_in_area (overpass env) (osm_cache st)
               (pt_y (centroid polygon)) (pt_x (centroid polygon)) 1000)).
Proof.
  intros Hin Hpoly.
  rewrite (create_territory_outcome env st data polygon Hin Hpoly).
  cbn [snd osm_cache]. rewrite assess_cache.
  apply get_amenities_in_area_stored.
Qed.

(** ** When the green-space rule fires *)

(** X20: the environmental score is below 60 exactly when the amenity set
    has neither a park nor a playground, so the green-space message is
    recommended for the computed score in exactly that case. *)
Theorem environmental_message_when_no_green (safety efficiency accessibility : R)
    (amenities : AmenitySet) :
  (calculate_environmental_score amenities < 60 <->
   getitem amenities "park" = [] /\ getitem amenities "playground" = []) /\
  (In msg_environmental
     (recommendation_list safety efficiency accessibility
        (calculate_environmental_score amenities) amenities) <->
   getitem amenities "park" = [] /\ getitem amenities "playground" = []).
Proof.
  assert (Hscore : calculate_environmental_score amenities < 60 <->
            getitem amenities "park" = [] /\
            getitem amenities "playground" = []).
  { unfold calculate_environmental_score. cbv zeta.
    destruct (getitem amenities "park") as [| a parks];
      destruct (getitem amenities "playground") as [| b grounds];
      cbn [length Nat.add];
      repeat match goal with
             | |- context [(?n <? ?m)%nat] =>
                 destruct (Nat.ltb_spec n m)
             end;
      try lia;
      (split; [intros Hlt | intros [Hpark Hplay]]; try discriminate;
       try (split; reflexivity);
       try (rewrite Rmin_100_id in Hlt by lra; lra);
       try (rewrite Rmin_100_id by lra; lra)). }
  split; [exact Hscore |].
  rewrite <- Hscore.
  apply environmental_message_iff.
Qed.

(** * The further properties on the sample inputs *)

Lemma overall_score_range_witness :
  exists a,
    fst (assess flat_env empty_cache "t-1" origin 1000000 []) = Ok a /\
    42.5 <= overall_score a <= 92.5.
Proof.
  assert (H : 1000000 <> 0) by lra.
  destruct (assess_returns flat_env empty_cache "t-1" origin 1000000 [] H)
    as (efficiency & a & _ & Ha & _).
  exists a. split; [exact Ha |].
  exact (overall_score_range flat_env empty_cache "t-1" origin 1000000 [] a Ha).
Defined.

Lemma get_amenities_in_area_miss_keys_and_radius_witness :
  empty_cache (0, 0, 1000%Z) = None /\
  empty_cache (0, 0, 5000%Z) = None /\
  dom (fst (get_amenities_in_area police_down_overpass empty_cache 0 0 1000)) =
    list_to_set amenity_types /\
  fst (get_amenities_in_area police_down_overpass empty_cache 0 0 1000) =
    fst (get_amenities_in_area police_down_overpass empty_cache 0 0 5000).
Proof.
  split; [reflexivity |]. split; [reflexivity |].
  exact (get_amenities_in_area_miss_keys_and_radius police_down_overpass
           empty_cache 0 0 1000 5000 eq_refl eq_refl).
Defined.

Lemma get_roads_in_polygon_malformed_witness :
  (exists ring coord,
     [[[0; 0]; [1]; [1; 1]]] !! 0%nat = Some ring /\ coord ∈ ring /\
     (length coord < 2)%nat) /\
  get_roads_in_polygon silent_overpass [[[0; 0]; [1]; [1; 1]]] = [].
Proof.
  assert (H : exists ring coord,
            [[[0; 0]; [1]; [1; 1]]] !! 0%nat = Some ring /\ coord ∈ ring /\
            (length coord < 2)%nat).
  { exists [[0; 0]; [1]; [1; 1]], [1]. split; [reflexivity |].
    split; [| cbn; lia]. apply list_elem_of_In. cbn. tauto. }
  split; [exact H |].
  apply (get_roads_in_polygon_malformed silent_overpass
           [[[0; 0]; [1]; [1; 1]]]).
  right. right. exact H.
Defined.

Lemma square_ring_pairs (coord : list R) :
  coord ∈ [[0; 0]; [1; 0]; [1; 1]; [0; 1]; [0; 0]] -> (2 <= length coord)%nat.
Proof.
  intros H. apply list_elem_of_In in H. cbn [In] in H.
  repeat (destruct H as [<- | H]; [cbn; lia |]). contradiction.
Qed.

Lemma get_roads_in_polygon_bounding_box_witness :
  tc_coordinates square_request !! 0%nat =
    Some [[0; 0]; [1; 0]; [1; 1]; [0; 1]; [0; 0]] /\
  exists min_lat min_lon max_lat max_lon,
    get_roads_in_polygon silent_overpass (tc_coordinates square_request) =
      match query_ways silent_overpass [min_lat; min_lon; max_lat; max_lon] with
      | Ok roads => roads
      | Raise _ => []
      end /\
    forall lon lat rest,
      (lon :: lat :: rest) ∈ [[0; 0]; [1; 0]; [1; 1]; [0; 1]; [0; 0]] ->
      min_lat <= lat <= max_lat /\ min_lon <= lon <= max_lon.
Proof.
  split; [reflexivity |].
  apply (get_roads_in_polygon_bounding_box silent_overpass
           (tc_coordinates square_request)
           [[0; 0]; [1; 0]; [1; 1]; [0; 1]; [0; 0]] eq_refl).
  - discriminate.
  - exact square_ring_pairs.
Defined.

Lemma stocked_store_project : "p-1" ∈ dom (PROJECTS stocked_store).
Proof. apply elem_of_dom. eexists. reflexivity. Qed.

Lemma delete_project_cascades_witness :
  "p-1" ∈ dom (PROJECTS stocked_store) /\
  exists st',
    delete_project stocked_store "p-1" = (Ok "Project deleted", st') /\
    get_project st' "p-1" = Raise (HTTPException 404 "Project not found") /\
    get_territory st' "t-1" =
      Raise (HTTPException 404 "Territory not found") /\
    get_assessment st' "t-1" =
      Raise (HTTPException 404 "Assessment not found").
Proof.
  split; [exact stocked_store_project |].
  destruct (delete_project_cascades stocked_store "p-1" stocked_store_project)
    as (st' & Hrun & Hproj & _ & Hgone & _).
  destruct (Hgone "t-1" square_territory eq_refl eq_refl) as [Ht Ha].
  exists st'. exact (conj Hrun (conj Hproj (conj Ht Ha))).
Defined.

Lemma square_request_polygon :
  (ring ← index (tc_coordinates square_request) 0;
   shapely_Polygon square_env ring) = Ok (mkPolygon 1 (mkPoint 0.5 0.5)).
Proof. reflexivity. Qed.

Lemma create_territory_stores_assessment_witness :
  exists a territory st',
    fst (assess square_env (osm_cache one_project_store) "t-1"
           (mkPoint 0.5 0.5) (1 * 111320 * 111320)
           (tc_coordinates square_request)) = Ok a /\
    create_territory square_env one_project_store square_request
      = (Ok territory, st') /\
    get_territory st' "t-1" = Ok territory /\
    get_assessment st' "t-1" = Ok a /\
    territory_id a = "t-1".
Proof.
  assert (H : 1 * 111320 * 111320 <> 0) by lra.
  destruct (assess_returns square_env (osm_cache one_project_store) "t-1"
              (mkPoint 0.5 0.5) (1 * 111320 * 111320)
              (tc_coordinates square_request) H)
    as (efficiency & a & _ & Ha & _).
  destruct (create_territory_stores_assessment square_env one_project_store
              square_request (mkPolygon 1 (mkPoint 0.5 0.5))
              (mkProject "p-1" "demo" None None "2024-01-01T00:00:00" 0) a
              eq_refl square_request_polygon Ha)
    as (territory & st' & Hrun & Ht & Hget & Hid & _).
  exists a, territory, st'.
  exact (conj Ha (conj Hrun (conj Ht (conj Hget Hid)))).
Defined.

Lemma stocked_store_consistent : store_consistent stocked_store.
Proof.
  split.
  - intros k t Hk. cbn [TERRITORIES stocked_store] in Hk.
    apply lookup_singleton_Some in Hk as [_ <-].
    exact stocked_store_project.
  - intros k Hk. cbn [ASSESSMENTS TERRITORIES stocked_store] in *.
    rewrite dom_singleton_L in *. exact Hk.
Qed.

Lemma stocked_store_counts : counts_accurate stocked_store.
Proof.
  intros q p Hq. cbn [PROJECTS stocked_store] in Hq.
  apply lookup_singleton_Some in Hq as [<- <-].
  unfold territories_of. cbn [TERRITORIES stocked_store territories_count].
  rewrite map_filter_singleton_True by reflexivity.
  by rewrite map_size_singleton.
Qed.

Lemma store_consistent_preserved_witness :
  store_consistent stocked_store /\
  store_consistent
    (snd (create_project "p-2" "2024-01-02T00:00:00" stocked_store
            demo_project_data)) /\
  store_consistent
    (snd (create_territory square_env stocked_store square_request)) /\
  store_consistent (snd (delete_project stocked_store "p-1")).
Proof.
  split; [exact stocked_store_consistent |].
  destruct (store_consistent_preserved stocked_store stocked_store_consistent)
    as (Hcp & Hct & Hdp).
  exact (conj (Hcp _ _ _) (conj (Hct _ _) (Hdp _))).
Defined.

Lemma counts_accurate_preserved_witness :
  store_consistent stocked_store /\
  counts_accurate stocked_store /\
  counts_accurate
    (snd (create_project "p-2" "2024-01-02T00:00:00" stocked_store
            demo_project_data)) /\
  counts_accurate (snd (delete_project stocked_store "p-1")).
Proof.
  split; [exact stocked_store_consistent |].
  split; [exact stocked_store_counts |].
  destruct (counts_accurate_preserved stocked_store stocked_store_consistent
              stocked_store_counts) as (Hcp & _ & Hdp).
  split; [| exact (Hdp _)].
  apply Hcp. apply not_elem_of_dom. reflexivity.
Defined.

Lemma create_territory_then_delete_project_witness :
  tc_project_id square_request ∈ dom (PROJECTS one_project_store) /\
  exists territory st1 st2,
    create_territory square_env one_project_store square_request
      = (Ok territory, st1) /\
    get_territory st1 "t-1" = Ok territory /\
    delete_project st1 "p-1" = (Ok "Project deleted", st2) /\
    get_project st2 "p-1" = Raise (HTTPException 404 "Project not found") /\
    get_territory st2 "t-1" =
      Raise (HTTPException 404 "Territory not found") /\
    get_assessment st2 "t-1" =
      Raise (HTTPException 404 "Assessment not found").
Proof.
  split; [exact flat_request_project |].
  exact (create_territory_then_delete_project square_env one_project_store
           square_request (mkPolygon 1 (mkPoint 0.5 0.5))
           flat_request_project square_request_polygon).
Defined.

Lemma created_project_accepts_territory_witness :
  tc_project_id square_request = "p-1" /\
  exists territory st' p,
    create_territory square_env
      (snd (create_project "p-1" "2024-01-01T00:00:00" empty_store
              demo_project_data)) square_request = (Ok territory, st') /\
    get_project st' "p-1" = Ok p /\
    project_name p = "demo" /\
    territories_count p = 1%Z.
Proof.
  split; [reflexivity |].
  exact (proj2 (proj2 (created_project_accepts_territory "p-1"
                         "2024-01-01T00:00:00" empty_store demo_project_data
                         square_env square_request
                         (mkPolygon 1 (mkPoint 0.5 0.5))
                         eq_refl square_request_polygon))).
Defined.

Lemma create_territory_fills_cache_witness :
  tc_project_id flat_request ∈ dom (PROJECTS one_project_store) /\
  fst (create_territory flat_env one_project_store flat_request) =
    Ok (mkTerritory "t-1" "flat" "p-1" (tc_coordinates flat_request)
          (0 * 111320 * 111320) 0 1 "2024-01-01T00:00:00") /\
  osm_cache (snd (create_territory flat_env one_project_store flat_request))
    (0, 1, 1000%Z) =
  Some (fst (get_amenities_in_area silent_overpass empty_cache 0 1 1000)).
Proof.
  split; [exact flat_request_project |]. split.
  - by rewrite (create_territory_outcome flat_env one_project_store
                  flat_request (mkPolygon 0 (mkPoint 1 0))
                  flat_request_project flat_request_polygon).
  - exact (create_territory_fills_cache flat_env one_project_store
             flat_request (mkPolygon 0 (mkPoint 1 0))
             flat_request_project flat_request_polygon).
Defined.
